(** * pypiserver-metrics-plugin: a shallow embedding of the collector and the plugin

    The development follows the two source modules:
    - [Collector] embeds [collector.py] (class [MetricsCollector]);
    - [Plugin] embeds [plugin.py] (class [MetricsPlugin]): the request hooks,
      the classification of requests, the scrape endpoint and the refresh of
      the repository gauges.

    Python objects that the plugin mutates (the plugin itself, the Bottle
    application, the thread-local request and response, the wall clock and
    the storage backend) live in one explicit [State]; a method is a function
    from a state to an outcome and a new state, and an exception is an outcome
    that keeps the state reached when it was raised. *)

From stdpp Require Import base gmap strings list pretty.
From Stdlib Require Import ZArith Lia.

Open Scope string_scope.
Open Scope Z_scope.

(** ** Python values used by the code *)

(** Readings of [time.time()] and their differences.  The model takes them as
    exact numbers, counted in ticks of the clock; the rounding of float
    subtraction is outside the model. *)
Abbreviation time := Z.

(** Exceptions, all of them subclasses of [Exception]; [str(e)] is the
    message. *)
Inductive exn : Type :=
  | AttributeError (msg : string)
  | RuntimeError (msg : string)
  | OtherException (msg : string).

Definition str_exn (e : exn) : string :=
  match e with
  | AttributeError m | RuntimeError m | OtherException m => m
  end.

(** [isinstance(e, AttributeError)] *)
Definition is_AttributeError (e : exn) : bool :=
  match e with AttributeError _ => true | _ => false end.

Inductive result (A : Type) : Type :=
  | Ok (a : A)
  | Raise (e : exn).
Arguments Ok {A} a.
Arguments Raise {A} e.

(** [str(n)] for an [int]. *)
Definition str_int (n : Z) : string := pretty n.

Module PyStr.

(** [s.startswith(p)] *)
Definition startswith (p s : string) : bool := String.prefix p s.

Fixpoint drop (n : nat) (s : string) : string :=
  match n, s with
  | O, _ => s
  | S _, EmptyString => EmptyString
  | S n', String _ s' => drop n' s'
  end.

(** The text after the first occurrence of [sep] in [s], if there is one. *)
Fixpoint after_first (sep s : string) : option string :=
  if String.prefix sep s then Some (drop (String.length sep) s)
  else match s with
       | EmptyString => None
       | String _ s' => after_first sep s'
       end.

(** [s.split(sep, 1)[-1]] for a non-empty [sep]: what follows the first
    occurrence of [sep], or all of [s] when [sep] does not occur. *)
Definition split1_last (sep s : string) : string :=
  match after_first sep s with
  | Some r => r
  | None => s
  end.

(** [s.split(sep)[0]] for a non-empty [sep]: what precedes the first
    occurrence of [sep], or all of [s] when [sep] does not occur. *)
Fixpoint split_first (sep s : string) : string :=
  if String.prefix sep s then EmptyString
  else match s with
       | EmptyString => EmptyString
       | String c s' => String c (split_first sep s')
       end.

(** Truth value of a string: [bool(s)]. *)
Definition truthy (s : string) : bool :=
  match s with EmptyString => false | _ => true end.

(** [a or b] on strings. *)
Definition or_else (a b : string) : string := if truthy a then a else b.

(** [pre ++ needle ++ post]: [needle in s]. *)
Definition contains (needle s : string) : Prop :=
  exists pre post, s = pre ++ needle ++ post.

End PyStr.

(** ** collector.py *)

Module Collector.

(** A labelled [Counter]: one value per observed tuple of label values; a
    series is created by [labels(...)] the first time its tuple is seen. *)
Definition counter_value `{Countable K} (k : K) (m : gmap K nat) : nat :=
  default O (m !! k).

(** [counter.labels(k).inc()] *)
Definition counter_inc `{Countable K} (k : K) (m : gmap K nat) : gmap K nat :=
  <[k := S (counter_value k m)]> m.

(** A labelled [Histogram], kept as the observations of each series, latest
    first; the count, the sum and the bucket counts of a series are
    functions of them. *)
Definition observations `{Countable K} (k : K) (m : gmap K (list time))
  : list time :=
  default [] (m !! k).

(** [histogram.labels(k).observe(v)] *)
Definition histogram_observe `{Countable K} (k : K) (v : time)
    (m : gmap K (list time)) : gmap K (list time) :=
  <[k := v :: observations k m]> m.

Abbreviation labels2 := (string * string)%type.
Abbreviation labels3 := (string * string * string)%type.

Record MetricsCollector : Type := mkCollector {
  http_requests_total : gmap labels3 nat;
  http_request_duration_seconds : gmap labels3 (list time);
  package_downloads_total : gmap labels2 nat;
  package_uploads_total : gmap labels2 nat;
  package_upload_failures_total : gmap string nat;
  package_removals_total : gmap labels2 nat;
  packages_total : Z;
  projects_total : Z;
  searches_total : gmap string nat;
  simple_index_requests_total : gmap string nat;
  auth_attempts_total : gmap labels2 nat;
  errors_total : gmap labels3 nat;
  server_info : option (string * string * string);
  start_time : time;
  uptime_seconds : time
}.

(** [MetricsCollector()], built when the clock reads [now]. *)
Definition init (now : time) : MetricsCollector :=
  {| http_requests_total := ∅;
     http_request_duration_seconds := ∅;
     package_downloads_total := ∅;
     package_uploads_total := ∅;
     package_upload_failures_total := ∅;
     package_removals_total := ∅;
     packages_total := 0;
     projects_total := 0;
     searches_total := ∅;
     simple_index_requests_total := ∅;
     auth_attempts_total := ∅;
     errors_total := ∅;
     server_info := None;
     start_time := now;
     uptime_seconds := 0 |}.

Definition record_http_request (method endpoint status_code : string)
    (duration : time) (c : MetricsCollector) : MetricsCollector :=
  {| http_requests_total :=
       counter_inc (method, endpoint, status_code) (http_requests_total c);
     http_request_duration_seconds :=
       histogram_observe (method, endpoint, status_code) duration
         (http_request_duration_seconds c);
     package_downloads_total := package_downloads_total c;
     package_uploads_total := package_uploads_total c;
     package_upload_failures_total := package_upload_failures_total c;
     package_removals_total := package_removals_total c;
     packages_total := packages_total c;
     projects_total := projects_total c;
     searches_total := searches_total c;
     simple_index_requests_total := simple_index_requests_total c;
     auth_attempts_total := auth_attempts_total c;
     errors_total := errors_total c;
     server_info := server_info c;
     start_time := start_time c;
     uptime_seconds := uptime_seconds c |}.

Definition record_download (package_name filename : string)
    (c : MetricsCollector) : MetricsCollector :=
  {| http_requests_total := http_requests_total c;
     http_request_duration_seconds := http_request_duration_seconds c;
     package_downloads_total :=
       counter_inc (package_name, filename) (package_downloads_total c);
     package_uploads_total := package_uploads_total c;
     package_upload_failures_total := package_upload_failures_total c;
     package_removals_total := package_removals_total c;
     packages_total := packages_total c;
     projects_total := projects_total c;
     searches_total := searches_total c;
     simple_index_requests_total := simple_index_requests_total c;
     auth_attempts_total := auth_attempts_total c;
     errors_total := errors_total c;
     server_info := server_info c;
     start_time := start_time c;
     uptime_seconds := uptime_seconds c |}.

Definition record_upload (package_name user : string)
    (c : MetricsCollector) : MetricsCollector :=
  {| http_requests_total := http_requests_total c;
     http_request_duration_seconds := http_request_duration_seconds c;
     package_downloads_total := package_downloads_total c;
     package_uploads_total :=
       counter_inc (package_name, PyStr.or_else user "anonymous")
         (package_uploads_total c);
     package_upload_failures_total := package_upload_failures_total c;
     package_removals_total := package_removals_total c;
     packages_total := packages_total c;
     projects_total := projects_total c;
     searches_total := searches_total c;
     simple_index_requests_total := simple_index_requests_total c;
     auth_attempts_total := auth_attempts_total c;
     errors_total := errors_total c;
     server_info := server_info c;
     start_time := start_time c;
     uptime_seconds := uptime_seconds c |}.

Definition update_package_counts (package_count project_count : Z)
    (c : MetricsCollector) : MetricsCollector :=
  {| http_requests_total := http_requests_total c;
     http_request_duration_seconds := http_request_duration_seconds c;
     package_downloads_total := package_downloads_total c;
     package_uploads_total := package_uploads_total c;
     package_upload_failures_total := package_upload_failures_total c;
     package_removals_total := package_removals_total c;
     packages_total := package_count;
     projects_total := project_count;
     searches_total := searches_total c;
     simple_index_requests_total := simple_index_requests_total c;
     auth_attempts_total := auth_attempts_total c;
     errors_total := errors_total c;
     server_info := server_info c;
     start_time := start_time c;
     uptime_seconds := uptime_seconds c |}.

Definition record_search (search_type : string)
    (c : MetricsCollector) : MetricsCollector :=
  {| http_requests_total := http_requests_total c;
     http_request_duration_seconds := http_request_duration_seconds c;
     package_downloads_total := package_downloads_total c;
     package_uploads_total := package_uploads_total c;
     package_upload_failures_total := package_upload_failures_total c;
     package_removals_total := package_removals_total c;
     packages_total := packages_total c;
     projects_total := projects_total c;
     searches_total := counter_inc search_type (searches_total c);
     simple_index_requests_total := simple_index_requests_total c;
     auth_attempts_total := auth_attempts_total c;
     errors_total := errors_total c;
     server_info := server_info c;
     start_time := start_time c;
     uptime_seconds := uptime_seconds c |}.

Definition set_server_info (version backend_type fallback_url : string)
    (c : MetricsCollector) : MetricsCollector :=
  {| http_requests_total := http_requests_total c;
     http_request_duration_seconds := http_request_duration_seconds c;
     package_downloads_total := package_downloads_total c;
     package_uploads_total := package_uploads_total c;
     package_upload_failures_total := package_upload_failures_total c;
     package_removals_total := package_removals_total c;
     packages_total := packages_total c;
     projects_total := projects_total c;
     searches_total := searches_total c;
     simple_index_requests_total := simple_index_requests_total c;
     auth_attempts_total := auth_attempts_total c;
     errors_total := errors_total c;
     server_info := Some (version, backend_type, fallback_url);
     start_time := start_time c;
     uptime_seconds := uptime_seconds c |}.

(** [update_uptime], when [time.time()] reads [now]. *)
Definition update_uptime (now : time) (c : MetricsCollector)
  : MetricsCollector :=
  {| http_requests_total := http_requests_total c;
     http_request_duration_seconds := http_request_duration_seconds c;
     package_downloads_total := package_downloads_total c;
     package_uploads_total := package_uploads_total c;
     package_upload_failures_total := package_upload_failures_total c;
     package_removals_total := package_removals_total c;
     packages_total := packages_total c;
     projects_total := projects_total c;
     searches_total := searches_total c;
     simple_index_requests_total := simple_index_requests_total c;
     auth_attempts_total := auth_attempts_total c;
     errors_total := errors_total c;
     server_info := server_info c;
     start_time := start_time c;
     uptime_seconds := now - start_time c |}.

Definition record_upload_failure (reason : string)
    (c : MetricsCollector) : MetricsCollector :=
  {| http_requests_total := http_requests_total c;
     http_request_duration_seconds := http_request_duration_seconds c;
     package_downloads_total := package_downloads_total c;
     package_uploads_total := package_uploads_total c;
     package_upload_failures_total :=
       counter_inc reason (package_upload_failures_total c);
     package_removals_total := package_removals_total c;
     packages_total := packages_total c;
     projects_total := projects_total c;
     searches_total := searches_total c;
     simple_index_requests_total := simple_index_requests_total c;
     auth_attempts_total := auth_attempts_total c;
     errors_total := errors_total c;
     server_info := server_info c;
     start_time := start_time c;
     uptime_seconds := uptime_seconds c |}.

Definition record_removal (package_name user : string)
    (c : MetricsCollector) : MetricsCollector :=
  {| http_requests_total := http_requests_total c;
     http_request_duration_seconds := http_request_duration_seconds c;
     package_downloads_total := package_downloads_total c;
     package_uploads_total := package_uploads_total c;
     package_upload_failures_total := package_upload_failures_total c;
     package_removals_total :=
       counter_inc (package_name, PyStr.or_else user "anonymous")
         (package_removals_total c);
     packages_total := packages_total c;
     projects_total := projects_total c;
     searches_total := searches_total c;
     simple_index_requests_total := simple_index_requests_total c;
     auth_attempts_total := auth_attempts_total c;
     errors_total := errors_total c;
     server_info := server_info c;
     start_time := start_time c;
     uptime_seconds := uptime_seconds c |}.

Definition record_simple_index_request (project_name : string)
    (c : MetricsCollector) : MetricsCollector :=
  {| http_requests_total := http_requests_total c;
     http_request_duration_seconds := http_request_duration_seconds c;
     package_downloads_total := package_downloads_total c;
     package_uploads_total := package_uploads_total c;
     package_upload_failures_total := package_upload_failures_total c;
     package_removals_total := package_removals_total c;
     packages_total := packages_total c;
     projects_total := projects_total c;
     searches_total := searches_total c;
     simple_index_requests_total :=
       counter_inc project_name (simple_index_requests_total c);
     auth_attempts_total := auth_attempts_total c;
     errors_total := errors_total c;
     server_info := server_info c;
     start_time := start_time c;
     uptime_seconds := uptime_seconds c |}.

(** [record_auth_attempt]: the label [result] is [success] or [failure]. *)
Definition record_auth_attempt (action : string) (success : bool)
    (c : MetricsCollector) : MetricsCollector :=
  {| http_requests_total := http_requests_total c;
     http_request_duration_seconds := http_request_duration_seconds c;
     package_downloads_total := package_downloads_total c;
     package_uploads_total := package_uploads_total c;
     package_upload_failures_total := package_upload_failures_total c;
     package_removals_total := package_removals_total c;
     packages_total := packages_total c;
     projects_total := projects_total c;
     searches_total := searches_total c;
     simple_index_requests_total := simple_index_requests_total c;
     auth_attempts_total :=
       counter_inc (action, if success then "success" else "failure")
         (auth_attempts_total c);
     errors_total := errors_total c;
     server_info := server_info c;
     start_time := start_time c;
     uptime_seconds := uptime_seconds c |}.

Definition record_error (endpoint error_type status_code : string)
    (c : MetricsCollector) : MetricsCollector :=
  {| http_requests_total := http_requests_total c;
     http_request_duration_seconds := http_request_duration_seconds c;
     package_downloads_total := package_downloads_total c;
     package_uploads_total := package_uploads_total c;
     package_upload_failures_total := package_upload_failures_total c;
     package_removals_total := package_removals_total c;
     packages_total := packages_total c;
     projects_total := projects_total c;
     searches_total := searches_total c;
     simple_index_requests_total := simple_index_requests_total c;
     auth_attempts_total := auth_attempts_total c;
     errors_total :=
       counter_inc (endpoint, error_type, status_code) (errors_total c);
     server_info := server_info c;
     start_time := start_time c;
     uptime_seconds := uptime_seconds c |}.

End Collector.

(** ** plugin.py *)

Module Plugin.
Import Collector.

(** *** The host's objects, as far as the plugin reads or writes them *)

(** An uploaded file part (Bottle's [FileUpload]). *)
Record FileUpload : Type := mkFileUpload { raw_filename : string }.

(** Bottle's thread-local [request].  Reading [forms], [files] or [auth]
    runs host code, which may raise. *)
Record Request : Type := mkRequest {
  path : string;
  method : string;
  _metrics_start_time : option time;
  forms : result (gmap string string);
  files : result (gmap string FileUpload);
  auth : result (option (string * option string))
}.

(** Bottle's thread-local [response]. *)
Record Response : Type := mkResponse {
  status_code : Z;
  content_type : string
}.

(** A package file of the storage backend. *)
Record PkgFile : Type := mkPkgFile { pkgname : string; version : string }.

(** The storage backend: [type_name] is [type(backend).__name__], and
    [get_all_packages n] is what the call of [get_all_packages()] returns
    (or raises) when [n] calls were made before it. *)
Record Backend : Type := mkBackend {
  type_name : string;
  get_all_packages : nat -> result (list PkgFile)
}.

(** pypiserver's configuration object. *)
Record Config : Type := mkConfig {
  backend : option Backend;
  fallback_url : option string
}.

Inductive Callback : Type :=
  | HostCallback (name : string)
  | metrics_handler_callback.

Inductive Hook : Type :=
  | HostHook (name : string)
  | before_request_hook
  | after_request_hook.

Record Route : Type := mkRoute {
  rule : string;
  route_method : string;
  callback : Callback
}.

(** The Bottle application. *)
Record App : Type := mkApp {
  _pypiserver_config : option Config;
  routes : list Route;
  before_request_hooks : list Hook;
  after_request_hooks : list Hook
}.

(** [self]: the attributes of a [MetricsPlugin]. *)
Record MetricsPlugin : Type := mkPlugin {
  metrics_endpoint : string;
  config : option Config;
  collector : option MetricsCollector
}.

(** [MetricsPlugin(metrics_endpoint)], where [env] is the value of the
    environment variable [METRICS_ENDPOINT], if it is set. *)
Definition __init__ (env : option string) (endpoint : string)
  : MetricsPlugin :=
  {| metrics_endpoint := default endpoint env;
     config := None;
     collector := None |}.

(** What a route handler returns: [bytes] or [str]. *)
Inductive Body : Type :=
  | BodyBytes (b : string)
  | BodyText (s : string).

(** *** The state the methods run in *)

Record State : Type := mkState {
  st_clock : nat -> time;  (* [st_clock n]: the reading of call [n] of [time.time()] *)
  st_ticks : nat;          (* calls of [time.time()] made so far *)
  st_queries : nat;        (* calls of [get_all_packages()] made so far *)
  st_self : MetricsPlugin;
  st_app : App;
  st_request : Request;
  st_response : Response;
  st_log : list string     (* warnings logged, latest first *)
}.

Definition set_ticks (n : nat) (s : State) : State :=
  mkState (st_clock s) n (st_queries s) (st_self s) (st_app s)
    (st_request s) (st_response s) (st_log s).
Definition set_queries (n : nat) (s : State) : State :=
  mkState (st_clock s) (st_ticks s) n (st_self s) (st_app s)
    (st_request s) (st_response s) (st_log s).
Definition set_self (p : MetricsPlugin) (s : State) : State :=
  mkState (st_clock s) (st_ticks s) (st_queries s) p (st_app s)
    (st_request s) (st_response s) (st_log s).
Definition set_app (a : App) (s : State) : State :=
  mkState (st_clock s) (st_ticks s) (st_queries s) (st_self s) a
    (st_request s) (st_response s) (st_log s).
Definition set_request (r : Request) (s : State) : State :=
  mkState (st_clock s) (st_ticks s) (st_queries s) (st_self s) (st_app s)
    r (st_response s) (st_log s).
Definition set_response (r : Response) (s : State) : State :=
  mkState (st_clock s) (st_ticks s) (st_queries s) (st_self s) (st_app s)
    (st_request s) r (st_log s).
Definition set_log (l : list string) (s : State) : State :=
  mkState (st_clock s) (st_ticks s) (st_queries s) (st_self s) (st_app s)
    (st_request s) (st_response s) l.

Definition set_collector (c : option MetricsCollector) (s : State) : State :=
  set_self {| metrics_endpoint := metrics_endpoint (st_self s);
              config := config (st_self s);
              collector := c |} s.
Definition set_config (c : option Config) (s : State) : State :=
  set_self {| metrics_endpoint := metrics_endpoint (st_self s);
              config := c;
              collector := collector (st_self s) |} s.

(** A method: it returns or raises, and leaves a state either way. *)
Definition M (A : Type) : Type := State -> result A * State.

Definition ret {A} (a : A) : M A := fun s => (Ok a, s).
Definition raise {A} (e : exn) : M A := fun s => (Raise e, s).
Definition bind {A B} (m : M A) (k : A -> M B) : M B :=
  fun s => match m s with
           | (Ok a, s') => k a s'
           | (Raise e, s') => (Raise e, s')
           end.
Definition lift {A} (r : result A) : M A := fun s => (r, s).
(** [try: m  except Exception as e: h e] *)
Definition try_except {A} (m : M A) (h : exn -> M A) : M A :=
  fun s => match m s with
           | (Ok a, s') => (Ok a, s')
           | (Raise e, s') => h e s'
           end.
Definition modify (f : State -> State) : M unit := fun s => (Ok tt, f s).

Notation "x <~ m ;; k" := (bind m (fun x => k))
  (at level 100, m at next level, right associativity).
Notation "m ;;; k" := (bind m (fun _ => k))
  (at level 100, right associativity).

(** [time.time()] *)
Definition time_time : M time :=
  fun s => (Ok (st_clock s (st_ticks s)), set_ticks (S (st_ticks s)) s).

(** [self.collector.<attr>]: an attribute of [None] cannot be read. *)
Definition get_collector (attr : string) : M MetricsCollector :=
  fun s => match collector (st_self s) with
           | Some c => (Ok c, s)
           | None =>
               (Raise (AttributeError
                  ("'NoneType' object has no attribute '" ++ attr ++ "'")), s)
           end.

(** [self.collector.<attr>(...)] for a method that updates the collector. *)
Definition collector_call (attr : string)
    (f : MetricsCollector -> MetricsCollector) : M unit :=
  c <~ get_collector attr ;; modify (set_collector (Some (f c))).

Definition newline : string := String (Ascii.ascii_of_nat 10) EmptyString.

Section Collaborators.

(** [pypiserver.pkg_helpers.guess_pkgname_and_version]: a pair of the
    project name and the version, [None], or an exception. *)
Variable guess_pkgname_and_version :
  string -> result (option (string * string)).
(** [prometheus_client.generate_latest] on the registry of a collector. *)
Variable generate_latest : MetricsCollector -> result string.
Variable CONTENT_TYPE_LATEST : string.
(** [pypiserver.__version__] *)
Variable pypiserver_version : string.

Definition _before_request : M unit :=
  now <~ time_time ;;
  modify (fun s =>
    set_request
      {| path := path (st_request s);
         method := method (st_request s);
         _metrics_start_time := Some now;
         forms := forms (st_request s);
         files := files (st_request s);
         auth := auth (st_request s) |} s).

(** The source also passes [response], which the body does not read. *)
Definition _record_application_metrics (request : Request)
    (status_code : string) : M unit :=
  let path := path request in
  let method := method request in
  if bool_decide (method = "GET") && PyStr.startswith "/packages/" path
     && bool_decide (status_code = "200") then
    let filename :=
      PyStr.split_first "?" (PyStr.split1_last "/packages/" path) in
    if PyStr.truthy filename then
      pkg_info <~ lift (guess_pkgname_and_version filename) ;;
      match pkg_info with
      | Some (package_name, _) =>
          collector_call "record_download"
            (record_download package_name filename)
      | None => ret tt
      end
    else ret tt
  else if bool_decide (method = "POST") && bool_decide (path = "/")
          && bool_decide (status_code = "200") then
    fields <~ lift (forms request) ;;
    let action := default "" (fields !! ":action") in
    if bool_decide (action = "file_upload") then
      parts <~ lift (files request) ;;
      (* ["content" in files], then [files.get("content")]; a
         [FileUpload] object is always true *)
      match parts !! "content" with
      | Some uploaded_file =>
          pkg_info <~
            lift (guess_pkgname_and_version (raw_filename uploaded_file)) ;;
          match pkg_info with
          | Some (package_name, _) =>
              (* [request.auth] is read for the test and again for
                 [[0]]; both reads give the same value *)
              principal <~ lift (auth request) ;;
              let user := match principal with
                          | Some (u, _) => u
                          | None => "anonymous"
                          end in
              collector_call "record_upload"
                (record_upload package_name user)
          | None => ret tt
          end
      | None => ret tt
      end
    else ret tt
  else if bool_decide (method = "POST") && bool_decide (path = "/RPC2")
          && bool_decide (status_code = "200") then
    collector_call "record_search" (record_search "xmlrpc")
  else ret tt.

Definition _after_request : M unit :=
  fun s =>
    match collector (st_self s) with
    | None => (Ok tt, s)
    | Some _ =>
        (now <~ time_time ;;
         (* the default of [getattr] is computed before the lookup *)
         fallback <~ time_time ;;
         request <~ (fun s => (Ok (st_request s), s)) ;;
         response <~ (fun s => (Ok (st_response s), s)) ;;
         let duration :=
           now - default fallback (_metrics_start_time request) in
         let endpoint := path request in
         let method := method request in
         let status_code := str_int (status_code response) in
         collector_call "record_http_request"
           (record_http_request method endpoint status_code duration) ;;;
         _record_application_metrics request status_code) s
    end.

(** [self.config.backend.get_all_packages()], read into a list. *)
Definition query (b : Backend) : M (list PkgFile) :=
  fun s => (get_all_packages b (st_queries s),
            set_queries (S (st_queries s)) s).

Definition log_warning (msg : string) : M unit :=
  modify (fun s => set_log (msg :: st_log s) s).

Definition _update_repository_stats : M unit :=
  fun s =>
    match config (st_self s) with
    | None => (Ok tt, s)
    | Some cfg =>
        match backend cfg with
        | None => (Ok tt, s)
        | Some b =>
            try_except
              (pkgs <~ query b ;;
               let package_count := Z.of_nat (length pkgs) in
               pkgs' <~ query b ;;
               let projects : gset string :=
                 foldl (fun acc pkg => acc ∪ {[ pkgname pkg ]}) ∅ pkgs' in
               let project_count := Z.of_nat (size projects) in
               collector_call "update_package_counts"
                 (update_package_counts package_count project_count))
              (fun e =>
                 if is_AttributeError e then ret tt
                 else log_warning
                        ("Failed to update repository stats: " ++ str_exn e))
              s
        end
    end.

(** [self.collector.generate_metrics()] (collector.py): the uptime gauge
    is set from the clock, then the registry is rendered. *)
Definition generate_metrics : M (string * string) :=
  get_collector "generate_metrics" ;;;
  now <~ time_time ;;
  collector_call "update_uptime" (update_uptime now) ;;;
  c <~ get_collector "registry" ;;
  bytes <~ lift (generate_latest c) ;;
  ret (bytes, CONTENT_TYPE_LATEST).

Definition set_content_type (ct : string) : M unit :=
  modify (fun s =>
    set_response {| status_code := status_code (st_response s);
                    content_type := ct |} s).
Definition set_status (code : Z) : M unit :=
  modify (fun s =>
    set_response {| status_code := code;
                    content_type := content_type (st_response s) |} s).

Definition metrics_handler : M Body :=
  try_except
    (_update_repository_stats ;;;
     rendered <~ generate_metrics ;;
     set_content_type (snd rendered) ;;;
     ret (BodyBytes (fst rendered)))
    (fun e =>
       set_status 500 ;;;
       set_content_type "text/plain" ;;;
       ret (BodyText ("Error generating metrics: " ++ str_exn e ++ newline))).

(** [app.route(rule, "GET", metrics_handler)] *)
Definition app_route (r : Route) (a : App) : App :=
  {| _pypiserver_config := _pypiserver_config a;
     routes := routes a ++ [r];
     before_request_hooks := before_request_hooks a;
     after_request_hooks := after_request_hooks a |}.

(** [app.add_hook('before_request', h)] appends. *)
Definition add_before_hook (h : Hook) (a : App) : App :=
  {| _pypiserver_config := _pypiserver_config a;
     routes := routes a;
     before_request_hooks := before_request_hooks a ++ [h];
     after_request_hooks := after_request_hooks a |}.

(** [app.add_hook('after_request', h)] puts the hook first. *)
Definition add_after_hook (h : Hook) (a : App) : App :=
  {| _pypiserver_config := _pypiserver_config a;
     routes := routes a;
     before_request_hooks := before_request_hooks a;
     after_request_hooks := h :: after_request_hooks a |}.

Definition overlap_error (endpoint : string) : exn :=
  RuntimeError
    ("Metrics endpoint '" ++ endpoint ++ "' overlaps with existing routes").

Definition metrics_route (endpoint : string) : Route :=
  {| rule := endpoint; route_method := "GET";
     callback := metrics_handler_callback |}.

Definition _add_metrics_endpoint : M unit :=
  fun s =>
    let endpoint := metrics_endpoint (st_self s) in
    if bool_decide (endpoint ∈ (rule <$> routes (st_app s)))
    then (Raise (overlap_error endpoint), s)
    else (Ok tt, set_app (app_route (metrics_route endpoint) (st_app s)) s).

Definition missing_config_error : exn :=
  RuntimeError
    ("Cannot find pypiserver config. " ++
     "Ensure this plugin is used with a pypiserver Bottle app.").

Definition setup : M unit :=
  fun s =>
    let s := set_config (_pypiserver_config (st_app s)) s in
    match config (st_self s) with
    | None => (Raise missing_config_error, s)
    | Some cfg =>
        ((* [MetricsCollector()] reads the clock for [start_time] *)
         now <~ time_time ;;
         modify (set_collector (Some (Collector.init now))) ;;;
         collector_call "set_server_info"
           (set_server_info pypiserver_version
              (match backend cfg with
               | Some b => type_name b
               | None => "NoneType"
               end)
              (PyStr.or_else (default "" (fallback_url cfg)) "none")) ;;;
         modify (fun s => set_app (add_before_hook before_request_hook (st_app s)) s) ;;;
         modify (fun s => set_app (add_after_hook after_request_hook (st_app s)) s) ;;;
         _add_metrics_endpoint) s
    end.

(** [apply]: the plugin wraps no route. *)
Definition apply (callback : Callback) (route : Route) : Callback := callback.

(** [close] *)
Definition close : M unit := ret tt.

End Collaborators.

End Plugin.

(** ** Concrete hosts, requests and collaborators *)

Module Examples.
Import Collector Plugin.

(** A clock that returns the readings of a list in turn, then 0. *)
Definition clock_of (readings : list time) : nat -> time :=
  fun n => default 0 (readings !! n).

(** A request with no form fields, no file parts and no principal. *)
Definition plain_request (m p : string) (stamp : option time) : Request :=
  {| path := p; method := m; _metrics_start_time := stamp;
     forms := Ok ∅; files := Ok ∅; auth := Ok None |}.

Definition fresh_response (code : Z) : Response :=
  {| status_code := code; content_type := "text/html; charset=UTF-8" |}.

(** A filename parser that knows one file. *)
Definition foo_parser (filename : string) : result (option (string * string)) :=
  if bool_decide (filename = "foo-1.0.0.tar.gz")
  then Ok (Some ("foo", "1.0.0"))
  else Ok None.

(** A filename parser that fails. *)
Definition failing_parser (filename : string)
  : result (option (string * string)) :=
  Raise (OtherException "cannot parse").

(** A backend that answers the calls of [get_all_packages()] from a list
    of answers, in turn, and with no packages afterwards. *)
Definition scripted_backend (answers : list (result (list PkgFile)))
  : Backend :=
  {| type_name := "SimpleFileBackend";
     get_all_packages := fun n => default (Ok []) (answers !! n) |}.

Definition host_config (b : Backend) : Config :=
  {| backend := Some b; fallback_url := None |}.

Definition host_app (cfg : option Config) (rules : list string) : App :=
  {| _pypiserver_config := cfg;
     routes := (fun r => mkRoute r "GET" (HostCallback r)) <$> rules;
     before_request_hooks := [];
     after_request_hooks := [] |}.

(** A plugin after [setup], serving a request. *)
Definition serving (readings : list time) (cfg : option Config)
    (c : option MetricsCollector) (rq : Request) (code : Z) : State :=
  {| st_clock := clock_of readings;
     st_ticks := 0;
     st_queries := 0;
     st_self := {| metrics_endpoint := "/metrics"; config := cfg;
                   collector := c |};
     st_app := host_app cfg ["/"; "/simple/"; "/packages/"];
     st_request := rq;
     st_response := fresh_response code;
     st_log := [] |}.

(** A plugin before [setup], with the application it is installed to. *)
Definition installing (endpoint : string) (a : App) : State :=
  {| st_clock := clock_of [100];
     st_ticks := 0;
     st_queries := 0;
     st_self := __init__ None endpoint;
     st_app := a;
     st_request := plain_request "GET" "/" None;
     st_response := fresh_response 200;
     st_log := [] |}.

(** The request [GET /simple/], stamped at 5, served by a clock that reads
    3 and then 4. *)
Definition late_stamp_state : State :=
  serving [3; 4] None (Some (Collector.init 0))
    (plain_request "GET" "/simple/" (Some 5)) 200.

(** The same request without a stamp. *)
Definition no_stamp_state : State :=
  serving [3; 4] None (Some (Collector.init 0))
    (plain_request "GET" "/simple/" None) 200.

(** The same request, stamped at 1, on a plugin without a collector. *)
Definition no_collector_state : State :=
  serving [3; 4] None None (plain_request "GET" "/simple/" (Some 1)) 200.

(** The after-request hook's state for [GET /packages/foo-1.0.0.tar.gz]
    when the thread-local response reads the status [code]. *)
Definition download_state (code : Z) : State :=
  serving [3; 4] None (Some (Collector.init 0))
    (plain_request "GET" "/packages/foo-1.0.0.tar.gz" (Some 1)) code.

(** The hook's state for [GET /packages/] when the thread-local response
    reads 200. *)
Definition packages_root_state : State :=
  serving [3; 4] None (Some (Collector.init 0))
    (plain_request "GET" "/packages/" (Some 1)) 200.

Definition foo_pkg : PkgFile := {| pkgname := "foo"; version := "1.0.0" |}.
Definition bar_pkg : PkgFile := {| pkgname := "bar"; version := "2.1" |}.

(** A backend that gains a package between two calls. *)
Definition growing_backend : Backend :=
  scripted_backend [Ok [foo_pkg]; Ok [foo_pkg; bar_pkg]].

(** A backend with two files of one project and one of another. *)
Definition steady_backend : Backend :=
  scripted_backend [Ok [foo_pkg; foo_pkg; bar_pkg];
                    Ok [foo_pkg; foo_pkg; bar_pkg]].

(** A backend whose first call fails. *)
Definition broken_backend : Backend :=
  scripted_backend [Raise (OtherException "storage unreachable")].

(** A collector whose gauges were set by an earlier scrape. *)
Definition scraped_collector : MetricsCollector :=
  update_package_counts 4 3 (Collector.init 0).

(** The scrape request [GET /metrics] on a plugin with backend [b]. *)
Definition scrape_state (b : Backend) : State :=
  serving [7; 8] (Some (host_config b)) (Some scraped_collector)
    (plain_request "GET" "/metrics" None) 200.

(** [POST /] answered with 200, with the form field [:action] set to
    [file_upload], a file part [content] named [bar-2.1.tar.gz] and no
    principal. *)
Definition upload_request : Request :=
  {| path := "/"; method := "POST"; _metrics_start_time := Some 1;
     forms := Ok {[ ":action" := "file_upload" ]};
     files := Ok {[ "content" := mkFileUpload "bar-2.1.tar.gz" ]};
     auth := Ok None |}.

(** The same upload on a host whose form parser fails. *)
Definition broken_forms_request : Request :=
  {| path := "/"; method := "POST"; _metrics_start_time := Some 1;
     forms := Raise (OtherException "malformed body");
     files := Ok {[ "content" := mkFileUpload "bar-2.1.tar.gz" ]};
     auth := Ok None |}.

(** The same upload on a host whose principal accessor fails. *)
Definition broken_auth_request : Request :=
  {| path := "/"; method := "POST"; _metrics_start_time := Some 1;
     forms := Ok {[ ":action" := "file_upload" ]};
     files := Ok {[ "content" := mkFileUpload "bar-2.1.tar.gz" ]};
     auth := Raise (OtherException "bad authorization header") |}.

(** A filename parser that knows the uploaded file. *)
Definition bar_parser (filename : string) : result (option (string * string)) :=
  if bool_decide (filename = "bar-2.1.tar.gz")
  then Ok (Some ("bar", "2.1"))
  else Ok None.

Definition request_state (rq : Request) : State :=
  serving [3; 4] None (Some (Collector.init 0)) rq 200.

Definition render_ok (c : MetricsCollector) : result string :=
  Ok "# HELP pypiserver_packages_total Current number of package files".

Definition render_fails (c : MetricsCollector) : result string :=
  Raise (OtherException "render failed").

Definition content_type_latest : string :=
  "text/plain; version=0.0.4; charset=utf-8".

(** An upload by the principal [alice]. *)
Definition alice_upload_request : Request :=
  {| path := "/"; method := "POST"; _metrics_start_time := Some 1;
     forms := Ok {[ ":action" := "file_upload" ]};
     files := Ok {[ "content" := mkFileUpload "bar-2.1.tar.gz" ]};
     auth := Ok (Some ("alice", Some "secret")) |}.

(** [POST /] with the action [remove_pkg]. *)
Definition remove_request : Request :=
  {| path := "/"; method := "POST"; _metrics_start_time := Some 1;
     forms := Ok {[ ":action" := "remove_pkg" ]};
     files := Ok ∅;
     auth := Ok None |}.

(** [POST /RPC2] on a host whose accessors all fail. *)
Definition rpc_request : Request :=
  {| path := "/RPC2"; method := "POST"; _metrics_start_time := Some 1;
     forms := Raise (OtherException "malformed body");
     files := Raise (OtherException "malformed body");
     auth := Raise (OtherException "bad authorization header") |}.

(** A filename parser that takes the text before the first [-] as the
    project name. *)
Definition dash_parser (filename : string) : result (option (string * string)) :=
  Ok (Some (PyStr.split_first "-" filename,
            PyStr.split1_last "-" filename)).

(** A plugin about to be installed to a pypiserver application. *)
Definition install_state (rules : list string) : State :=
  installing "/metrics"
    (host_app (Some (host_config steady_backend)) rules).

(** [GET /packages/foo-1.0.0.tar.gz?download=1] answered with 200. *)
Definition query_download_state : State :=
  request_state
    (plain_request "GET" "/packages/foo-1.0.0.tar.gz?download=1" (Some 1)).

(** [HEAD /packages/foo-1.0.0.tar.gz] answered with 200. *)
Definition head_request : Request :=
  plain_request "HEAD" "/packages/foo-1.0.0.tar.gz" (Some 1).


End Examples.

(** ** Observations on a state *)

Import Collector Plugin.

(** The label values of the HTTP series of the request being served. *)
Definition request_labels (s : State) : labels3 :=
  (method (st_request s), path (st_request s),
   str_int (status_code (st_response s))).

(** The durations observed so far in a series of the HTTP histogram, latest
    first (none when there is no collector). *)
Definition recorded_durations (k : labels3) (s : State) : list time :=
  match collector (st_self s) with
  | Some c => observations k (http_request_duration_seconds c)
  | None => []
  end.

(** The value of a series of the HTTP request counter. *)
Definition recorded_requests (k : labels3) (s : State) : nat :=
  match collector (st_self s) with
  | Some c => counter_value k (http_requests_total c)
  | None => O
  end.

(** The download counter, series by series. *)
Definition recorded_downloads (s : State) : gmap labels2 nat :=
  match collector (st_self s) with
  | Some c => package_downloads_total c
  | None => ∅
  end.

(** The upload counter, series by series. *)
Definition recorded_uploads (s : State) : gmap labels2 nat :=
  match collector (st_self s) with
  | Some c => package_uploads_total c
  | None => ∅
  end.

(** The search counter, series by series. *)
Definition recorded_searches (s : State) : gmap string nat :=
  match collector (st_self s) with
  | Some c => searches_total c
  | None => ∅
  end.

(** The two repository gauges. *)
Definition repository_gauges (s : State) : option (Z * Z) :=
  match collector (st_self s) with
  | Some c => Some (packages_total c, projects_total c)
  | None => None
  end.

(** The number of distinct project names of a package list. *)
Definition distinct_projects (pkgs : list PkgFile) : nat :=
  size (list_to_set (pkgname <$> pkgs) : gset string).

(** The duration that the after-request hook computes in state [s]: the
    first clock reading of the hook minus the stamp, or minus the second
    reading when the request carries no stamp. *)
Definition hook_duration (s : State) : time :=
  st_clock s (st_ticks s)
  - default (st_clock s (S (st_ticks s))) (_metrics_start_time (st_request s)).

(** The state of the after-request hook between the HTTP metric and the
    classification, for a plugin whose collector is [c]. *)
Definition after_http_metric (c : MetricsCollector) (s : State) : State :=
  set_collector
    (Some (record_http_request (method (st_request s)) (path (st_request s))
             (str_int (status_code (st_response s))) (hook_duration s) c))
    (set_ticks (S (S (st_ticks s))) s).

(** A domain event, as the classification of a request records it. *)
Inductive DomainEvent : Type :=
  | Download (package_name filename : string)
  | Upload (package_name user : string)
  | Search (search_type : string).

(** The collector after an optional domain event. *)
Definition apply_event (ev : option DomainEvent) (c : MetricsCollector)
  : MetricsCollector :=
  match ev with
  | None => c
  | Some (Download n f) => record_download n f c
  | Some (Upload n u) => record_upload n u c
  | Some (Search t) => record_search t c
  end.

(** No series of [m] is lower or missing in [m']. *)
Definition series_le `{Countable K} (m m' : gmap K nat) : Prop :=
  forall k, (counter_value k m <= counter_value k m')%nat
            /\ (is_Some (m !! k) -> is_Some (m' !! k)).

(** No series of any counter of [c] is lower or missing in [c']. *)
Definition counters_le (c c' : MetricsCollector) : Prop :=
  series_le (http_requests_total c) (http_requests_total c')
  /\ series_le (package_downloads_total c) (package_downloads_total c')
  /\ series_le (package_uploads_total c) (package_uploads_total c')
  /\ series_le (package_upload_failures_total c)
       (package_upload_failures_total c')
  /\ series_le (package_removals_total c) (package_removals_total c')
  /\ series_le (searches_total c) (searches_total c')
  /\ series_le (simple_index_requests_total c)
       (simple_index_requests_total c')
  /\ series_le (auth_attempts_total c) (auth_attempts_total c')
  /\ series_le (errors_total c) (errors_total c').

(** In every HTTP series the histogram holds as many observations as the
    counter counts requests. *)
Definition http_consistent (c : MetricsCollector) : Prop :=
  forall k, length (observations k (http_request_duration_seconds c))
            = counter_value k (http_requests_total c).

(** The instruments that no hook writes. *)
Definition unwritten_instruments (c : MetricsCollector) :=
  (package_upload_failures_total c, package_removals_total c,
   simple_index_requests_total c, auth_attempts_total c, errors_total c,
   server_info c, start_time c, uptime_seconds c).

(** The user label of an upload by [principal]. *)
Definition upload_user (principal : option (string * option string))
  : string :=
  match principal with
  | Some (u, _) => if PyStr.truthy u then u else "anonymous"
  | None => "anonymous"
  end.

(** ** Properties *)

Section Hooks.

Variable guess : string -> result (option (string * string)).

Lemma set_collector_same s c :
  collector (st_self s) = Some c -> set_collector (Some c) s = s.
Proof.
  destruct s as [? ? ? [ep cf co] ? ? ? ?]; simpl; intros ->; reflexivity.
Qed.

(** Classification touches at most the collector, and in it neither the
    HTTP counter nor the HTTP histogram nor the repository gauges;
    this holds whether it returns or raises. *)
Lemma record_application_metrics_frame request status s c :
  collector (st_self s) = Some c ->
  exists r c',
    _record_application_metrics guess request status s
      = (r, set_collector (Some c') s)
    /\ http_requests_total c' = http_requests_total c
    /\ http_request_duration_seconds c' = http_request_duration_seconds c
    /\ packages_total c' = packages_total c
    /\ projects_total c' = projects_total c.
Proof.
  intros Hc.
  assert (Hid : forall r : result unit,
             exists r' c', (r, s) = (r', set_collector (Some c') s)
               /\ http_requests_total c' = http_requests_total c
               /\ http_request_duration_seconds c'
                  = http_request_duration_seconds c
               /\ packages_total c' = packages_total c
               /\ projects_total c' = projects_total c).
  { intros r; exists r, c; rewrite (set_collector_same _ _ Hc); auto. }
  assert (Hcall : forall attr f,
             http_requests_total (f c) = http_requests_total c ->
             http_request_duration_seconds (f c)
               = http_request_duration_seconds c ->
             packages_total (f c) = packages_total c ->
             projects_total (f c) = projects_total c ->
             exists r' c', collector_call attr f s
                           = (r', set_collector (Some c') s)
               /\ http_requests_total c' = http_requests_total c
               /\ http_request_duration_seconds c'
                  = http_request_duration_seconds c
               /\ packages_total c' = packages_total c
               /\ projects_total c' = projects_total c).
  { intros attr f H1 H2 H3 H4. exists (Ok tt), (f c).
    unfold collector_call, bind, get_collector, modify. rewrite Hc. auto. }
  unfold _record_application_metrics.
  repeat match goal with
    | |- context [if ?b then _ else _] => destruct b
    end;
    unfold bind, lift, ret;
    repeat match goal with
      | |- context [match ?x with _ => _ end] =>
          lazymatch x with
          | collector_call _ _ _ => fail
          | _ => destruct x
          end
      end;
    solve [ apply Hid | apply Hcall; reflexivity ].
Qed.

Lemma after_request_unfold s c :
  collector (st_self s) = Some c ->
  _after_request guess s
  = _record_application_metrics guess (st_request s)
      (str_int (status_code (st_response s))) (after_http_metric c s).
Proof.
  intros Hc. unfold _after_request. rewrite Hc.
  unfold after_http_metric, hook_duration.
  destruct s as [clk n q [ep cf co] a rq rs lg]; simpl in Hc; subst co.
  reflexivity.
Qed.

(** What the hook leaves behind, whether classification returns or raises:
    the HTTP counter of the request's series is one higher, its histogram
    has one more observation, the hook's duration, and the request, the
    response and the repository gauges are the same. *)
Lemma after_request_http_metric s c :
  collector (st_self s) = Some c ->
  exists r c',
    _after_request guess s
      = (r, set_collector (Some c') (set_ticks (S (S (st_ticks s))) s))
    /\ http_requests_total c'
       = counter_inc (request_labels s) (http_requests_total c)
    /\ http_request_duration_seconds c'
       = histogram_observe (request_labels s) (hook_duration s)
           (http_request_duration_seconds c)
    /\ packages_total c' = packages_total c
    /\ projects_total c' = projects_total c.
Proof.
  intros Hc. rewrite (after_request_unfold _ _ Hc).
  destruct (record_application_metrics_frame (st_request s)
              (str_int (status_code (st_response s)))
              (after_http_metric c s) _ eq_refl)
    as (r & c' & Heq & H1 & H2 & H3 & H4).
  exists r, c'. rewrite Heq. repeat split; assumption.
Qed.

(** C10: when the after-request hook runs on a plugin whose collector is
    [None], it returns normally and the whole state, every metric
    included, is what it was. *)
Theorem after_request_without_collector s :
  collector (st_self s) = None -> _after_request guess s = (Ok tt, s).
Proof. intros Hc. unfold _after_request. rewrite Hc. reflexivity. Qed.

(** C1, as amended: with a collector and a request that carries the stamp
    [t0] of the before-request hook, the after-request hook records one
    duration in the series of the request, and it is the first clock
    reading of the hook minus [t0], unclamped: it is below zero exactly
    when the stamp lies after that reading. *)
Theorem after_request_duration s c t0 :
  collector (st_self s) = Some c ->
  _metrics_start_time (st_request s) = Some t0 ->
  recorded_durations (request_labels s) (snd (_after_request guess s))
    = (st_clock s (st_ticks s) - t0)
      :: recorded_durations (request_labels s) s
  /\ (st_clock s (st_ticks s) - t0 < 0 <-> st_clock s (st_ticks s) < t0).
Proof.
  intros Hc Hstamp.
  destruct (after_request_http_metric s c Hc)
    as (r & c' & Heq & _ & Hh & _).
  rewrite Heq. split; [|lia].
  unfold recorded_durations; simpl. rewrite Hc, Hh.
  unfold histogram_observe, observations at 1.
  rewrite lookup_insert_eq. unfold hook_duration. rewrite Hstamp.
  reflexivity.
Qed.

(** The sign of the recorded duration: it is negative exactly when the
    stamp lies after the hook's clock reading. *)
Lemma hook_duration_negative s t0 :
  _metrics_start_time (st_request s) = Some t0 ->
  (hook_duration s < 0 <-> st_clock s (st_ticks s) < t0).
Proof. intros H. unfold hook_duration. rewrite H. simpl. lia. Qed.

(** On the code, for a request without a stamp: the default that line 88
    hands to [getattr] is a second reading of the clock, taken after the
    first, so the difference is 0 only when the two readings agree. *)
Lemma hook_duration_no_stamp s :
  _metrics_start_time (st_request s) = None ->
  (hook_duration s = 0 <-> st_clock s (S (st_ticks s)) = st_clock s (st_ticks s))
  /\ (st_clock s (st_ticks s) <= st_clock s (S (st_ticks s)) ->
      hook_duration s <= 0).
Proof. intros H. unfold hook_duration. rewrite H. simpl. lia. Qed.

(** An exception of the classification is the outcome of the hook: there
    is no handler between the two. *)
Lemma after_request_outcome s c :
  collector (st_self s) = Some c ->
  fst (_after_request guess s)
  = fst (_record_application_metrics guess (st_request s)
           (str_int (status_code (st_response s))) (after_http_metric c s)).
Proof. intros Hc. rewrite (after_request_unfold s c Hc). reflexivity. Qed.

(** Whatever the classification does, the HTTP counter of the request's
    series goes up by one and its histogram gets one observation. *)
Lemma after_request_records_once s c :
  collector (st_self s) = Some c ->
  recorded_requests (request_labels s) (snd (_after_request guess s))
    = S (recorded_requests (request_labels s) s)
  /\ length (recorded_durations (request_labels s)
               (snd (_after_request guess s)))
     = S (length (recorded_durations (request_labels s) s)).
Proof.
  intros Hc.
  destruct (after_request_http_metric s c Hc)
    as (r & c' & Heq & Hn & Hh & _).
  rewrite Heq. unfold recorded_requests, recorded_durations; simpl.
  rewrite Hc, Hn, Hh.
  unfold counter_inc, histogram_observe, counter_value at 1,
    observations at 1.
  rewrite !lookup_insert_eq. split; reflexivity.
Qed.

Lemma str_int_200 : str_int 200 = "200".
Proof. reflexivity. Qed.

Lemma str_int_404 : str_int 404 = "404".
Proof. reflexivity. Qed.

(** C9: for [GET /packages/] answered with 200 the hook returns normally,
    the download counter is left as it was, and the HTTP counter of the
    request's series goes up by one with one more observed duration. *)
Theorem packages_root_records_no_download s c :
  collector (st_self s) = Some c ->
  method (st_request s) = "GET" ->
  path (st_request s) = "/packages/" ->
  status_code (st_response s) = 200 ->
  fst (_after_request guess s) = Ok tt
  /\ recorded_downloads (snd (_after_request guess s))
     = recorded_downloads s
  /\ recorded_requests ("GET", "/packages/", "200")
       (snd (_after_request guess s))
     = S (recorded_requests ("GET", "/packages/", "200") s)
  /\ length (recorded_durations ("GET", "/packages/", "200")
               (snd (_after_request guess s)))
     = S (length (recorded_durations ("GET", "/packages/", "200") s)).
Proof.
  intros Hc Hm Hp Hs.
  destruct (after_request_records_once s c Hc) as [Hn Hd].
  unfold request_labels in Hn, Hd. rewrite Hm, Hp, Hs, str_int_200 in Hn, Hd.
  split; [|split; [|split; assumption]].
  - rewrite (after_request_outcome s c Hc).
    unfold _record_application_metrics. rewrite Hm, Hp, Hs, str_int_200.
    reflexivity.
  - rewrite (after_request_unfold s c Hc).
    unfold _record_application_metrics. rewrite Hm, Hp, Hs, str_int_200.
    unfold recorded_downloads. simpl. rewrite Hc. reflexivity.
Qed.

(** The download branch by the status that the hook reads from the
    thread-local response, for [GET /packages/foo-1.0.0.tar.gz] and a
    filename parser that gives the project name [foo]: reading 200, the
    hook adds one to the download series [(foo, foo-1.0.0.tar.gz)] and to
    no other; reading 404, it leaves the download counter as it was. *)
Theorem download_recorded_on_200_only s c v :
  collector (st_self s) = Some c ->
  guess "foo-1.0.0.tar.gz" = Ok (Some ("foo", v)) ->
  method (st_request s) = "GET" ->
  path (st_request s) = "/packages/foo-1.0.0.tar.gz" ->
  (status_code (st_response s) = 200 ->
     fst (_after_request guess s) = Ok tt
     /\ recorded_downloads (snd (_after_request guess s))
        = counter_inc ("foo", "foo-1.0.0.tar.gz") (recorded_downloads s))
  /\ (status_code (st_response s) = 404 ->
       fst (_after_request guess s) = Ok tt
       /\ recorded_downloads (snd (_after_request guess s))
          = recorded_downloads s).
Proof.
  intros Hc Hg Hm Hp. split; intros Hs.
  - rewrite (after_request_unfold s c Hc).
    unfold _record_application_metrics. rewrite Hm, Hp, Hs, str_int_200.
    change (PyStr.split_first "?"
              (PyStr.split1_last "/packages/" "/packages/foo-1.0.0.tar.gz"))
      with "foo-1.0.0.tar.gz".
    simpl. unfold bind, lift. rewrite Hg.
    unfold collector_call, bind, get_collector, modify, recorded_downloads.
    simpl. rewrite Hc. split; reflexivity.
  - rewrite (after_request_unfold s c Hc).
    unfold _record_application_metrics. rewrite Hm, Hp, Hs, str_int_404.
    unfold recorded_downloads. simpl. rewrite Hc. split; reflexivity.
Qed.

End Hooks.

(** One increment of a counter series: the series is one higher and every
    other series is what it was. *)
Lemma counter_inc_value `{Countable K} (k : K) (m : gmap K nat) :
  counter_value k (counter_inc k m) = S (counter_value k m).
Proof. unfold counter_inc, counter_value at 1. rewrite lookup_insert_eq. reflexivity. Qed.

Lemma counter_inc_other `{Countable K} (k k' : K) (m : gmap K nat) :
  k <> k' -> counter_inc k m !! k' = m !! k'.
Proof. intros Hne. unfold counter_inc. apply lookup_insert_ne, Hne. Qed.

Lemma after_request_without_collector_witness :
  collector (st_self Examples.no_collector_state) = None
  /\ _after_request Examples.foo_parser Examples.no_collector_state
     = (Ok tt, Examples.no_collector_state).
Proof.
  split; [reflexivity |].
  apply (after_request_without_collector Examples.foo_parser
           Examples.no_collector_state).
  reflexivity.
Defined.

Lemma after_request_duration_witness :
  recorded_durations ("GET", "/simple/", "200")
    (snd (_after_request Examples.foo_parser Examples.late_stamp_state))
  = [-2]
  /\ (3 - 5 < 0 <-> 3 < 5).
Proof.
  apply (after_request_duration Examples.foo_parser Examples.late_stamp_state
           (Collector.init 0) 5); reflexivity.
Defined.

(** C1, as stated, fails: a request stamped at 5 and finished when the
    clock reads 3 has the duration -2 recorded, not the clamped 0. *)
Lemma after_request_duration_not_clamped :
  _metrics_start_time (st_request Examples.late_stamp_state) = Some 5
  /\ st_clock Examples.late_stamp_state (st_ticks Examples.late_stamp_state) = 3
  /\ recorded_durations (request_labels Examples.late_stamp_state)
       (snd (_after_request Examples.foo_parser Examples.late_stamp_state))
     = [-2]
  /\ -2 <> Z.max 0 (3 - 5).
Proof. vm_compute. repeat split; discriminate. Qed.

(** On the code, for a request without a stamp and clock readings 3 and
    then 4: the duration recorded is -1. *)
Example missing_stamp_duration :
  _metrics_start_time (st_request Examples.no_stamp_state) = None
  /\ recorded_durations (request_labels Examples.no_stamp_state)
       (snd (_after_request Examples.foo_parser Examples.no_stamp_state))
     = [-1].
Proof. vm_compute. split; reflexivity. Qed.

(** C2 on the code: for [GET /packages/foo-1.0.0.tar.gz] answered with 200
    and a filename parser that raises, the hook raises the parser's
    exception; the HTTP counter and histogram of the request's series hold
    the one request all the same. *)
Theorem classification_exception_leaves_hook :
  fst (_after_request Examples.failing_parser (Examples.download_state 200))
    = Raise (OtherException "cannot parse")
  /\ recorded_requests (request_labels (Examples.download_state 200))
       (snd (_after_request Examples.failing_parser
               (Examples.download_state 200)))
     = 1%nat
  /\ recorded_durations (request_labels (Examples.download_state 200))
       (snd (_after_request Examples.failing_parser
               (Examples.download_state 200)))
     = [2].
Proof. vm_compute. repeat split. Qed.

Lemma packages_root_records_no_download_witness :
  fst (_after_request Examples.foo_parser Examples.packages_root_state) = Ok tt
  /\ recorded_downloads
       (snd (_after_request Examples.foo_parser Examples.packages_root_state))
     = ∅
  /\ recorded_requests ("GET", "/packages/", "200")
       (snd (_after_request Examples.foo_parser Examples.packages_root_state))
     = 1%nat.
Proof.
  destruct (packages_root_records_no_download Examples.foo_parser
              Examples.packages_root_state (Collector.init 0)
              eq_refl eq_refl eq_refl eq_refl) as (H1 & H2 & H3 & _).
  split; [exact H1 | split; [exact H2 | exact H3]].
Defined.

Lemma download_recorded_on_200_only_witness :
  recorded_downloads
    (snd (_after_request Examples.foo_parser (Examples.download_state 200)))
    = {[ ("foo", "foo-1.0.0.tar.gz") := 1%nat ]}
  /\ recorded_downloads
       (snd (_after_request Examples.foo_parser (Examples.download_state 404)))
     = ∅.
Proof.
  split.
  - apply (proj1 (download_recorded_on_200_only Examples.foo_parser
                    (Examples.download_state 200) (Collector.init 0) "1.0.0"
                    eq_refl eq_refl eq_refl eq_refl)).
    reflexivity.
  - apply (proj2 (download_recorded_on_200_only Examples.foo_parser
                    (Examples.download_state 404) (Collector.init 0) "1.0.0"
                    eq_refl eq_refl eq_refl eq_refl)).
    reflexivity.
Defined.


Section Scrape.

Variable generate_latest : MetricsCollector -> result string.
Variable CONTENT_TYPE_LATEST : string.

(** The loop that collects the project names builds the set of the names
    of the list. *)
Lemma projects_loop (pkgs : list PkgFile) (acc : gset string) :
  foldl (fun acc pkg => acc ∪ {[ pkgname pkg ]}) acc pkgs
  = acc ∪ list_to_set (pkgname <$> pkgs).
Proof.
  revert acc. induction pkgs as [|pkg pkgs IH]; intros acc.
  - rewrite fmap_nil, list_to_set_nil, (right_id_L ∅ (∪)). reflexivity.
  - rewrite fmap_cons, list_to_set_cons, (assoc_L (∪)). apply IH.
Qed.

Lemma distinct_projects_le (pkgs : list PkgFile) :
  (distinct_projects pkgs <= length pkgs)%nat.
Proof.
  unfold distinct_projects. induction pkgs as [|pkg pkgs IH].
  - rewrite fmap_nil, list_to_set_nil, size_empty. reflexivity.
  - rewrite fmap_cons, list_to_set_cons, size_union_alt, size_singleton.
    pose proof (subseteq_size
                  (list_to_set (pkgname <$> pkgs) ∖ {[pkgname pkg]})
                  (list_to_set (pkgname <$> pkgs) : gset string)
                  (subseteq_difference_l _ _ _ (reflexivity _))) as Hle.
    simpl. lia.
Qed.

(** The refresh never raises. *)
Lemma update_repository_stats_returns s :
  fst (_update_repository_stats s) = Ok tt.
Proof.
  unfold _update_repository_stats.
  destruct (config (st_self s)) as [cfg|]; [|reflexivity].
  destruct (backend cfg) as [b|]; [|reflexivity].
  unfold collector_call, try_except, bind, query, get_collector, modify,
    log_warning, ret; simpl.
  destruct (get_all_packages b (st_queries s)) as [l1|e1]; simpl.
  - destruct (get_all_packages b (S (st_queries s))) as [l2|e2]; simpl.
    + destruct (collector (st_self s)); reflexivity.
    + destruct (is_AttributeError e2); reflexivity.
  - destruct (is_AttributeError e1); reflexivity.
Qed.

(** A refresh in which a call of the backend raises leaves the plugin,
    the clock and the response as they were. *)
Lemma update_repository_stats_failure s cfg b e :
  config (st_self s) = Some cfg ->
  backend cfg = Some b ->
  get_all_packages b (st_queries s) = Raise e
  \/ (exists l, get_all_packages b (st_queries s) = Ok l
               /\ get_all_packages b (S (st_queries s)) = Raise e) ->
  let s' := snd (_update_repository_stats s) in
  st_self s' = st_self s /\ st_response s' = st_response s
  /\ st_ticks s' = st_ticks s /\ st_clock s' = st_clock s.
Proof.
  intros Hcfg Hb Hq. unfold _update_repository_stats. rewrite Hcfg, Hb.
  unfold try_except, bind, query, log_warning, modify, ret; simpl.
  destruct Hq as [Hq | (l & Hq1 & Hq2)].
  - rewrite Hq. destruct (is_AttributeError e); simpl; auto.
  - rewrite Hq1; simpl. rewrite Hq2.
    destruct (is_AttributeError e); simpl; auto.
Qed.

(** The state after a refresh whose two calls of the backend return. *)
Lemma update_repository_stats_success s cfg b c pkgs pkgs' :
  config (st_self s) = Some cfg ->
  backend cfg = Some b ->
  collector (st_self s) = Some c ->
  get_all_packages b (st_queries s) = Ok pkgs ->
  get_all_packages b (S (st_queries s)) = Ok pkgs' ->
  _update_repository_stats s
  = (Ok tt,
     set_collector
       (Some (update_package_counts (Z.of_nat (length pkgs))
                (Z.of_nat (distinct_projects pkgs')) c))
       (set_queries (S (S (st_queries s))) s)).
Proof.
  intros Hcfg Hb Hc Hq1 Hq2.
  unfold _update_repository_stats. rewrite Hcfg, Hb.
  unfold collector_call, try_except, bind, query, get_collector, modify,
    ret; simpl.
  rewrite Hq1; simpl. rewrite Hq2, Hc; simpl.
  unfold distinct_projects.
  rewrite projects_loop, (left_id_L ∅ (∪)). reflexivity.
Qed.

(** C3, as amended: with a backend configured and answering, the refresh
    calls [get_all_packages()] twice, sets [packages_total] to the length
    of the first answer and [projects_total] to the number of distinct
    project names of the second answer; when the two answers are the same
    list, the two gauges are the length and the number of distinct project
    names of that one list. *)
Theorem update_repository_stats_two_queries s cfg b c pkgs pkgs' :
  config (st_self s) = Some cfg ->
  backend cfg = Some b ->
  collector (st_self s) = Some c ->
  get_all_packages b (st_queries s) = Ok pkgs ->
  get_all_packages b (S (st_queries s)) = Ok pkgs' ->
  fst (_update_repository_stats s) = Ok tt
  /\ st_queries (snd (_update_repository_stats s)) = S (S (st_queries s))
  /\ repository_gauges (snd (_update_repository_stats s))
     = Some (Z.of_nat (length pkgs),
             Z.of_nat (size (list_to_set (pkgname <$> pkgs') : gset string)))
  /\ (pkgs' = pkgs ->
      repository_gauges (snd (_update_repository_stats s))
      = Some (Z.of_nat (length pkgs),
              Z.of_nat (size (list_to_set (pkgname <$> pkgs) : gset string)))).
Proof.
  intros Hcfg Hb Hc Hq1 Hq2.
  rewrite (update_repository_stats_success s cfg b c pkgs pkgs'
             Hcfg Hb Hc Hq1 Hq2).
  repeat split. intros ->. reflexivity.
Qed.

(** When the two answers of the backend are the same list, the two gauges
    describe that one list. *)
Corollary update_repository_stats_one_snapshot s cfg b c pkgs :
  config (st_self s) = Some cfg ->
  backend cfg = Some b ->
  collector (st_self s) = Some c ->
  get_all_packages b (st_queries s) = Ok pkgs ->
  get_all_packages b (S (st_queries s)) = Ok pkgs ->
  repository_gauges (snd (_update_repository_stats s))
  = Some (Z.of_nat (length pkgs), Z.of_nat (distinct_projects pkgs)).
Proof.
  intros Hcfg Hb Hc Hq1 Hq2.
  rewrite (update_repository_stats_success s cfg b c pkgs pkgs
             Hcfg Hb Hc Hq1 Hq2).
  reflexivity.
Qed.

(** The scrape handler never raises. *)
Lemma metrics_handler_returns s :
  exists body,
    fst (metrics_handler generate_latest CONTENT_TYPE_LATEST s) = Ok body.
Proof.
  unfold metrics_handler, try_except.
  match goal with
  | |- context [match ?m s with _ => _ end] => destruct (m s) as [[b|e] s1]
  end.
  - exists b. reflexivity.
  - eexists. reflexivity.
Qed.

(** C6: when rendering raises [e] during a scrape, the handler returns,
    the response has status 500 and content type [text/plain], and the
    body is the text [Error generating metrics: ] followed by the message
    of [e] and a newline. *)
Theorem metrics_handler_render_failure s e :
  fst (generate_metrics generate_latest CONTENT_TYPE_LATEST
         (snd (_update_repository_stats s))) = Raise e ->
  fst (metrics_handler generate_latest CONTENT_TYPE_LATEST s)
    = Ok (BodyText ("Error generating metrics: " ++ str_exn e ++ newline))
  /\ PyStr.contains (str_exn e)
       ("Error generating metrics: " ++ str_exn e ++ newline)
  /\ status_code
       (st_response
          (snd (metrics_handler generate_latest CONTENT_TYPE_LATEST s)))
     = 500
  /\ content_type
       (st_response
          (snd (metrics_handler generate_latest CONTENT_TYPE_LATEST s)))
     = "text/plain".
Proof.
  intros Hr.
  pose proof (update_repository_stats_returns s) as Hu.
  unfold metrics_handler, try_except, bind.
  destruct (_update_repository_stats s) as [r1 s1]; simpl in Hu, Hr.
  subst r1.
  destruct (generate_metrics generate_latest CONTENT_TYPE_LATEST s1)
    as [r2 s2]; simpl in Hr. subst r2. simpl.
  repeat split.
  exists "Error generating metrics: ", newline. reflexivity.
Qed.

(** C5: when a call of the backend raises during a scrape and rendering
    succeeds, the handler returns the rendered bytes, the status of the
    response is still 200, its content type is the exposition type, and
    [packages_total] and [projects_total] hold their earlier values. *)
Theorem metrics_handler_backend_failure s cfg b c e bytes :
  config (st_self s) = Some cfg ->
  backend cfg = Some b ->
  collector (st_self s) = Some c ->
  get_all_packages b (st_queries s) = Raise e
  \/ (exists l, get_all_packages b (st_queries s) = Ok l
               /\ get_all_packages b (S (st_queries s)) = Raise e) ->
  generate_latest (update_uptime (st_clock s (st_ticks s)) c) = Ok bytes ->
  status_code (st_response s) = 200 ->
  fst (metrics_handler generate_latest CONTENT_TYPE_LATEST s)
    = Ok (BodyBytes bytes)
  /\ status_code
       (st_response
          (snd (metrics_handler generate_latest CONTENT_TYPE_LATEST s)))
     = 200
  /\ content_type
       (st_response
          (snd (metrics_handler generate_latest CONTENT_TYPE_LATEST s)))
     = CONTENT_TYPE_LATEST
  /\ repository_gauges
       (snd (metrics_handler generate_latest CONTENT_TYPE_LATEST s))
     = repository_gauges s.
Proof.
  intros Hcfg Hb Hc Hq Hr Hs.
  pose proof (update_repository_stats_returns s) as Hu.
  destruct (update_repository_stats_failure s cfg b e Hcfg Hb Hq)
    as (Hself & Hresp & Hticks & Hclock).
  unfold metrics_handler, try_except, bind.
  destruct (_update_repository_stats s) as [r1 s1];
    simpl in Hu, Hself, Hresp, Hticks, Hclock. subst r1.
  unfold generate_metrics, collector_call, bind, get_collector, time_time,
    modify, lift, ret, set_content_type, repository_gauges; simpl.
  destruct s1 as [clk n q self a rq rs lg]; simpl in *. subst clk n self rs.
  repeat (first [rewrite Hc | rewrite Hr | rewrite Hs]; simpl).
  repeat split; reflexivity.
Qed.

End Scrape.

Section Setup.

Variable pypiserver_version : string.

(** The conflict check of the endpoint on its own: a rule equal to the
    endpoint raises and leaves the state; otherwise the route is added. *)
Lemma add_metrics_endpoint_spec s :
  (metrics_endpoint (st_self s) ∈ (rule <$> routes (st_app s)) ->
     _add_metrics_endpoint s
     = (Raise (overlap_error (metrics_endpoint (st_self s))), s))
  /\ (metrics_endpoint (st_self s) ∉ (rule <$> routes (st_app s)) ->
      _add_metrics_endpoint s
      = (Ok tt,
         set_app (app_route (metrics_route (metrics_endpoint (st_self s)))
                    (st_app s)) s)).
Proof.
  unfold _add_metrics_endpoint.
  split; intros Hin; case_bool_decide; (reflexivity || contradiction).
Qed.

(** C7: the endpoint step of [setup] raises a [RuntimeError] that names
    the endpoint and leaves the state when the endpoint equals the rule of
    a route of the application, and otherwise adds one route after the old
    ones: its rule is the endpoint, its method [GET] and its callback the
    metrics handler.  For [setup] as a whole: with such a route it raises
    (that same error, when the application carries a pypiserver
    configuration) and the routes are what they were; without one, and
    with the configuration there, it returns and the routes are the old
    ones followed by that route. *)
Theorem setup_endpoint_conflict s :
  (metrics_endpoint (st_self s) ∈ (rule <$> routes (st_app s)) ->
     _add_metrics_endpoint s
       = (Raise (RuntimeError
                   ("Metrics endpoint '" ++ metrics_endpoint (st_self s)
                    ++ "' overlaps with existing routes")), s)
     /\ (exists e, fst (setup pypiserver_version s) = Raise e)
     /\ (is_Some (_pypiserver_config (st_app s)) ->
         fst (setup pypiserver_version s)
         = Raise (RuntimeError
                    ("Metrics endpoint '" ++ metrics_endpoint (st_self s)
                     ++ "' overlaps with existing routes")))
     /\ routes (st_app (snd (setup pypiserver_version s)))
        = routes (st_app s))
  /\ (metrics_endpoint (st_self s) ∉ (rule <$> routes (st_app s)) ->
      (fst (_add_metrics_endpoint s) = Ok tt
       /\ routes (st_app (snd (_add_metrics_endpoint s)))
          = (routes (st_app s)
             ++ [ {| rule := metrics_endpoint (st_self s);
                     route_method := "GET";
                     callback := metrics_handler_callback |} ])%list)
      /\ (is_Some (_pypiserver_config (st_app s)) ->
          fst (setup pypiserver_version s) = Ok tt
          /\ routes (st_app (snd (setup pypiserver_version s)))
             = (routes (st_app s)
                ++ [ {| rule := metrics_endpoint (st_self s);
                        route_method := "GET";
                        callback := metrics_handler_callback |} ])%list)).
Proof.
  destruct (add_metrics_endpoint_spec s) as [Hhit Hmiss].
  split; intros Hin.
  - split; [exact (Hhit Hin)|]. clear Hhit Hmiss.
    unfold setup; simpl.
    destruct (_pypiserver_config (st_app s)) as [cfg|] eqn:Hcfg.
    + unfold collector_call, bind, time_time, modify, get_collector; simpl.
      unfold _add_metrics_endpoint; simpl.
      rewrite bool_decide_eq_true_2 by exact Hin. simpl.
      split; [eexists; reflexivity | split; [reflexivity .. ]].
    + simpl. split; [eexists; reflexivity | split; [|reflexivity]].
      intros [cfg Hsome]. discriminate Hsome.
  - split; [rewrite (Hmiss Hin); split; reflexivity|]. clear Hhit Hmiss.
    intros [cfg Hcfg]. unfold setup; simpl. rewrite Hcfg.
    unfold collector_call, bind, time_time, modify, get_collector; simpl.
    unfold _add_metrics_endpoint; simpl.
    rewrite bool_decide_eq_false_2 by exact Hin. simpl.
    split; reflexivity.
Qed.

End Setup.

(** X16: A counter series that is incremented [n] times in a row is [n] higher. *)
Lemma record_http_request_repeated (m e sc : string) (d : time) (n : nat)
    (c : MetricsCollector) :
  counter_value (m, e, sc)
    (http_requests_total (Nat.iter n (record_http_request m e sc d) c))
  = (n + counter_value (m, e, sc) (http_requests_total c))%nat.
Proof.
  induction n as [|n IH]; simpl; [reflexivity|].
  rewrite counter_inc_value, IH. reflexivity.
Qed.

(** C3, as stated, fails: with a backend that holds one package at the
    first call and two packages of two projects at the second, one refresh
    makes two calls and leaves [packages_total] = 1 and [projects_total]
    = 2, which no single package list has. *)
Lemma update_repository_stats_not_one_snapshot :
  st_queries (Examples.scrape_state Examples.growing_backend) = 0%nat
  /\ st_queries
       (snd (_update_repository_stats
               (Examples.scrape_state Examples.growing_backend)))
     = 2%nat
  /\ repository_gauges
       (snd (_update_repository_stats
               (Examples.scrape_state Examples.growing_backend)))
     = Some (1, 2)
  /\ ~ (exists pkgs : list PkgFile,
          1 = Z.of_nat (length pkgs)
          /\ 2 = Z.of_nat (distinct_projects pkgs)).
Proof.
  split; [reflexivity|]. split; [reflexivity|]. split; [vm_compute; reflexivity|].
  intros (pkgs & Hlen & Hdist).
  pose proof (distinct_projects_le pkgs). lia.
Qed.

Lemma update_repository_stats_two_queries_witness :
  fst (_update_repository_stats (Examples.scrape_state Examples.steady_backend))
    = Ok tt
  /\ st_queries
       (snd (_update_repository_stats
               (Examples.scrape_state Examples.steady_backend)))
     = 2%nat
  /\ repository_gauges
       (snd (_update_repository_stats
               (Examples.scrape_state Examples.steady_backend)))
     = Some (3, 2).
Proof.
  destruct (update_repository_stats_two_queries
              (Examples.scrape_state Examples.steady_backend)
              (Examples.host_config Examples.steady_backend)
              Examples.steady_backend Examples.scraped_collector
              [Examples.foo_pkg; Examples.foo_pkg; Examples.bar_pkg]
              [Examples.foo_pkg; Examples.foo_pkg; Examples.bar_pkg]
              eq_refl eq_refl eq_refl eq_refl eq_refl)
    as (H1 & H2 & _ & H4).
  split; [exact H1 | split; [exact H2 |]].
  rewrite (H4 eq_refl). vm_compute. reflexivity.
Defined.

Lemma metrics_handler_render_failure_witness :
  fst (metrics_handler Examples.render_fails Examples.content_type_latest
         (Examples.scrape_state Examples.steady_backend))
    = Ok (BodyText ("Error generating metrics: render failed" ++ newline))
  /\ status_code
       (st_response
          (snd (metrics_handler Examples.render_fails
                  Examples.content_type_latest
                  (Examples.scrape_state Examples.steady_backend))))
     = 500.
Proof.
  destruct (metrics_handler_render_failure Examples.render_fails
              Examples.content_type_latest
              (Examples.scrape_state Examples.steady_backend)
              (OtherException "render failed") eq_refl)
    as (Hbody & _ & Hstatus & _).
  split; [exact Hbody | exact Hstatus].
Defined.

Lemma metrics_handler_backend_failure_witness :
  fst (metrics_handler Examples.render_ok Examples.content_type_latest
         (Examples.scrape_state Examples.broken_backend))
    = Ok (BodyBytes
            "# HELP pypiserver_packages_total Current number of package files")
  /\ status_code
       (st_response
          (snd (metrics_handler Examples.render_ok
                  Examples.content_type_latest
                  (Examples.scrape_state Examples.broken_backend))))
     = 200
  /\ repository_gauges
       (snd (metrics_handler Examples.render_ok Examples.content_type_latest
               (Examples.scrape_state Examples.broken_backend)))
     = Some (4, 3).
Proof.
  destruct (metrics_handler_backend_failure Examples.render_ok
              Examples.content_type_latest
              (Examples.scrape_state Examples.broken_backend)
              (Examples.host_config Examples.broken_backend)
              Examples.broken_backend Examples.scraped_collector
              (OtherException "storage unreachable")
              "# HELP pypiserver_packages_total Current number of package files"
              eq_refl eq_refl eq_refl (or_introl eq_refl) eq_refl eq_refl)
    as (Hbody & Hstatus & _ & Hgauges).
  split; [exact Hbody | split; [exact Hstatus | exact Hgauges]].
Defined.

Lemma setup_endpoint_conflict_witness :
  fst (setup "2.3.2"
         (Examples.installing "/metrics"
            (Examples.host_app
               (Some (Examples.host_config Examples.steady_backend))
               ["/"; "/metrics"])))
    = Raise (RuntimeError
               "Metrics endpoint '/metrics' overlaps with existing routes")
  /\ (fst (setup "2.3.2"
             (Examples.installing "/metrics"
                (Examples.host_app
                   (Some (Examples.host_config Examples.steady_backend))
                   ["/"; "/simple/"])))
      = Ok tt
      /\ routes
           (st_app
              (snd (setup "2.3.2"
                      (Examples.installing "/metrics"
                         (Examples.host_app
                            (Some (Examples.host_config
                                     Examples.steady_backend))
                            ["/"; "/simple/"])))))
         = [ {| rule := "/"; route_method := "GET";
                callback := HostCallback "/" |};
             {| rule := "/simple/"; route_method := "GET";
                callback := HostCallback "/simple/" |};
             {| rule := "/metrics"; route_method := "GET";
                callback := metrics_handler_callback |} ]).
Proof.
  split.
  - refine (proj1 (proj2 (proj2
              (proj1 (setup_endpoint_conflict "2.3.2"
                        (Examples.installing "/metrics"
                           (Examples.host_app
                              (Some (Examples.host_config
                                       Examples.steady_backend))
                              ["/"; "/metrics"]))) _))) _).
    + refine (bool_decide_unpack _ _). vm_compute. exact I.
    + eexists. reflexivity.
  - refine (proj2
              (proj2 (setup_endpoint_conflict "2.3.2"
                        (Examples.installing "/metrics"
                           (Examples.host_app
                              (Some (Examples.host_config
                                       Examples.steady_backend))
                              ["/"; "/simple/"]))) _) _).
    + refine (bool_decide_unpack _ _). vm_compute. exact I.
    + eexists. reflexivity.
Defined.


(** ** The hooks on the requests of the specification's examples *)

(** A successful upload without a principal is counted for [anonymous]. *)
Example upload_recorded :
  fst (_after_request Examples.bar_parser
         (Examples.request_state Examples.upload_request)) = Ok tt
  /\ (collector
        (st_self
           (snd (_after_request Examples.bar_parser
                   (Examples.request_state Examples.upload_request))))
       ≫= fun c => Some (package_uploads_total c))
     = Some {[ ("bar", "anonymous") := 1%nat ]}.
Proof. vm_compute. split; reflexivity. Qed.

(** A successful [POST /RPC2] is counted as an [xmlrpc] search. *)
Example search_recorded :
  (collector
     (st_self
        (snd (_after_request Examples.foo_parser
                (Examples.request_state
                   (Examples.plain_request "POST" "/RPC2" (Some 1))))))
   ≫= fun c => Some (searches_total c))
  = Some {[ "xmlrpc" := 1%nat ]}.
Proof. vm_compute. reflexivity. Qed.

(** A form parser or a principal accessor that raises has its exception
    leave the hook as well, after the HTTP metric was recorded. *)
Example form_and_auth_exceptions_leave_hook :
  fst (_after_request Examples.bar_parser
         (Examples.request_state Examples.broken_forms_request))
    = Raise (OtherException "malformed body")
  /\ fst (_after_request Examples.bar_parser
            (Examples.request_state Examples.broken_auth_request))
     = Raise (OtherException "bad authorization header")
  /\ recorded_requests ("POST", "/", "200")
       (snd (_after_request Examples.bar_parser
               (Examples.request_state Examples.broken_auth_request)))
     = 1%nat.
Proof. vm_compute. repeat split. Qed.

(** The stamp of the before-request hook and the duration of the
    after-request hook that follows it: the reading of the clock at the
    end minus the reading at the start. *)
Lemma before_then_after_duration (s : State) :
  fst (_before_request s) = Ok tt
  /\ hook_duration (snd (_before_request s))
     = st_clock s (S (st_ticks s)) - st_clock s (st_ticks s).
Proof. split; reflexivity. Qed.

(** ** Counters: order and composition *)

Lemma series_le_refl `{Countable K} (m : gmap K nat) : series_le m m.
Proof. intros k. split; [lia | tauto]. Qed.

Lemma series_le_inc `{Countable K} (k : K) (m : gmap K nat) :
  series_le m (counter_inc k m).
Proof.
  intros k'. destruct (decide (k = k')) as [->|Hne].
  - rewrite counter_inc_value. split; [lia|].
    intros _. unfold counter_inc. rewrite lookup_insert_eq. eauto.
  - unfold counter_value, counter_inc. rewrite lookup_insert_ne by exact Hne.
    split; [lia | tauto].
Qed.

Lemma series_le_trans `{Countable K} (m1 m2 m3 : gmap K nat) :
  series_le m1 m2 -> series_le m2 m3 -> series_le m1 m3.
Proof.
  intros H12 H23 k. destruct (H12 k) as [Ha Hb], (H23 k) as [Hc Hd].
  split; [lia | tauto].
Qed.

Lemma counters_le_trans c1 c2 c3 :
  counters_le c1 c2 -> counters_le c2 c3 -> counters_le c1 c3.
Proof.
  unfold counters_le.
  intros (A1 & A2 & A3 & A4 & A5 & A6 & A7 & A8 & A9)
         (B1 & B2 & B3 & B4 & B5 & B6 & B7 & B8 & B9).
  repeat apply conj; eapply series_le_trans; eassumption.
Qed.

Ltac counters_le_step :=
  unfold counters_le; simpl;
  repeat apply conj; first [apply series_le_refl | apply series_le_inc].

Lemma counters_le_http m e sc d c :
  counters_le c (record_http_request m e sc d c).
Proof. counters_le_step. Qed.

Lemma counters_le_event ev c : counters_le c (apply_event ev c).
Proof. destruct ev as [[n f|n u|t]|]; counters_le_step. Qed.

(** X13: Every recording method of the collector leaves each series of each
    counter at least as high as it was, and removes no series. *)
Theorem record_methods_monotone (c : MetricsCollector) :
  (forall m e sc d, counters_le c (record_http_request m e sc d c))
  /\ (forall n f, counters_le c (record_download n f c))
  /\ (forall n u, counters_le c (record_upload n u c))
  /\ (forall r, counters_le c (record_upload_failure r c))
  /\ (forall n u, counters_le c (record_removal n u c))
  /\ (forall t, counters_le c (record_search t c))
  /\ (forall p, counters_le c (record_simple_index_request p c))
  /\ (forall a ok, counters_le c (record_auth_attempt a ok c))
  /\ (forall e t sc, counters_le c (record_error e t sc c))
  /\ (forall a b, counters_le c (update_package_counts a b c))
  /\ (forall now, counters_le c (update_uptime now c)).
Proof. repeat apply conj; intros; counters_le_step. Qed.

Lemma counter_inc_comm `{Countable K} (k1 k2 : K) (m : gmap K nat) :
  counter_inc k1 (counter_inc k2 m) = counter_inc k2 (counter_inc k1 m).
Proof.
  destruct (decide (k1 = k2)) as [->|Hne]; [reflexivity|].
  unfold counter_inc, counter_value.
  rewrite !lookup_insert_ne by congruence.
  apply insert_insert_ne. congruence.
Qed.

(** X14: The domain events of two requests can be recorded in either order: the
    collector is the same. *)
Theorem domain_events_commute (ev1 ev2 : option DomainEvent)
    (c : MetricsCollector) :
  apply_event ev1 (apply_event ev2 c) = apply_event ev2 (apply_event ev1 c).
Proof.
  destruct ev1 as [[n1 f1|n1 u1|t1]|], ev2 as [[n2 f2|n2 u2|t2]|];
    try reflexivity;
    unfold apply_event, record_download, record_upload, record_search; simpl;
    f_equal; apply counter_inc_comm.
Qed.

(** X15: An upload or a removal by a user with an empty name lands in the series
    of [anonymous]: the user label of these series is never empty. *)
Theorem anonymous_user_label (n u : string) (c : MetricsCollector) :
  (exists label,
      label <> ""
      /\ (u <> "" -> label = u)
      /\ (u = "" -> label = "anonymous")
      /\ package_uploads_total (record_upload n u c)
         = counter_inc (n, label) (package_uploads_total c)
      /\ package_removals_total (record_removal n u c)
         = counter_inc (n, label) (package_removals_total c)).
Proof.
  destruct u as [|a u].
  - exists "anonymous". repeat split; [discriminate | congruence].
  - exists (String a u). repeat split; [discriminate | discriminate].
Qed.

(** The HTTP counter and the HTTP histogram move together. *)
Lemma http_consistent_init now : http_consistent (Collector.init now).
Proof. intros k. reflexivity. Qed.

Lemma http_consistent_request m e sc d c :
  http_consistent c -> http_consistent (record_http_request m e sc d c).
Proof.
  intros Hc k. simpl. destruct (decide ((m, e, sc) = k)) as [<-|Hne].
  - rewrite counter_inc_value. unfold histogram_observe, observations at 1.
    rewrite lookup_insert_eq. simpl. f_equal. apply Hc.
  - unfold histogram_observe, counter_inc, observations at 1,
      counter_value at 1.
    rewrite !lookup_insert_ne by exact Hne. apply Hc.
Qed.

Lemma http_consistent_event ev c :
  http_consistent c -> http_consistent (apply_event ev c).
Proof. destruct ev as [[n f|n u|t]|]; intros Hc; exact Hc. Qed.

(** ** Splitting a path *)

Lemma string_app_cons (x : Ascii.ascii) (a b : string) :
  String x a ++ b = String x (a ++ b).
Proof. reflexivity. Qed.

Lemma string_app_nil (b : string) : "" ++ b = b.
Proof. reflexivity. Qed.

Ltac app_simpl :=
  repeat first [rewrite string_app_cons | rewrite string_app_nil]; simpl.

Ltac app_simpl_in H :=
  repeat first [rewrite string_app_cons in H | rewrite string_app_nil in H];
  simpl in H.

Lemma prefix_app (p t : string) : String.prefix p (p ++ t) = true.
Proof.
  induction p as [|a p IH]; app_simpl.
  - destruct t; reflexivity.
  - destruct (Ascii.ascii_dec a a) as [_|Hne]; [exact IH | congruence].
Qed.

Lemma prefix_inv (p s : string) :
  String.prefix p s = true -> exists t, s = p ++ t.
Proof.
  revert s. induction p as [|a p IH]; intros s Hp.
  - exists s. reflexivity.
  - destruct s as [|b s]; simpl in Hp; [discriminate|].
    destruct (Ascii.ascii_dec a b) as [->|Hne]; [|discriminate].
    destruct (IH s Hp) as [t ->]. exists t. reflexivity.
Qed.

Lemma drop_app (p t : string) : PyStr.drop (String.length p) (p ++ t) = t.
Proof.
  induction p as [|a p IH]; app_simpl; [destruct t; reflexivity | exact IH].
Qed.

Lemma string_app_assoc (a b c : string) : (a ++ b) ++ c = a ++ (b ++ c).
Proof.
  induction a as [|x a IH]; app_simpl; [reflexivity | f_equal; exact IH].
Qed.

Lemma after_first_eq (sep s : string) :
  PyStr.after_first sep s
  = if String.prefix sep s then Some (PyStr.drop (String.length sep) s)
    else match s with
         | EmptyString => None
         | String _ s' => PyStr.after_first sep s'
         end.
Proof. destruct s; reflexivity. Qed.

Lemma split_first_eq (sep s : string) :
  PyStr.split_first sep s
  = if String.prefix sep s then EmptyString
    else match s with
         | EmptyString => EmptyString
         | String c s' => String c (PyStr.split_first sep s')
         end.
Proof. destruct s; reflexivity. Qed.

Lemma prefix_drop (sep s : string) :
  String.prefix sep s = true -> s = sep ++ PyStr.drop (String.length sep) s.
Proof.
  intros Hp. destruct (prefix_inv _ _ Hp) as [t ->].
  rewrite drop_app. reflexivity.
Qed.

(** X17: What [split] cuts apart goes back together: when [sep] occurs in [s],
    [s] is the text before its first occurrence, [sep], and the text after
    it; when it does not occur, both parts are [s] itself. *)
Theorem split_parts_rejoin (sep s : string) :
  (forall r, PyStr.after_first sep s = Some r ->
             s = PyStr.split_first sep s ++ sep ++ r
             /\ PyStr.split1_last sep s = r)
  /\ (PyStr.after_first sep s = None ->
      PyStr.split_first sep s = s /\ PyStr.split1_last sep s = s).
Proof.
  unfold PyStr.split1_last. split.
  - intros r Hr. rewrite Hr. split; [|reflexivity].
    revert r Hr. induction s as [|a s IH]; intros r Hr;
      rewrite after_first_eq in Hr; rewrite split_first_eq;
      destruct (String.prefix sep _) eqn:Hp.
    + injection Hr as <-. rewrite string_app_nil. apply prefix_drop, Hp.
    + discriminate.
    + injection Hr as <-. rewrite string_app_nil. apply prefix_drop, Hp.
    + rewrite string_app_cons. f_equal. apply IH, Hr.
  - intros Hn. rewrite Hn. split; [|reflexivity].
    induction s as [|a s IH]; rewrite after_first_eq in Hn;
      rewrite split_first_eq; destruct (String.prefix sep _) eqn:Hp;
      try discriminate; [reflexivity|].
    f_equal. apply IH, Hn.
Qed.

Lemma split_first_is_prefix (sep s : string) :
  exists rest, s = PyStr.split_first sep s ++ rest.
Proof.
  induction s as [|a s [rest IH]]; rewrite split_first_eq;
    destruct (String.prefix sep _).
  - exists "". reflexivity.
  - exists "". reflexivity.
  - exists (String a s). reflexivity.
  - exists rest. rewrite string_app_cons. f_equal. exact IH.
Qed.

Lemma app_eq_nil (a b : string) : "" = a ++ b -> a = "" /\ b = "".
Proof.
  destruct a as [|x a].
  - rewrite string_app_nil. intros <-. split; reflexivity.
  - rewrite string_app_cons. discriminate.
Qed.

Lemma split_first_no_sep (sep s : string) :
  sep <> "" -> ~ PyStr.contains sep (PyStr.split_first sep s).
Proof.
  intros Hsep (pre & post & Heq). revert pre Heq.
  induction s as [|a s IH]; intros pre Heq; rewrite split_first_eq in Heq;
    destruct (String.prefix sep _) eqn:Hp.
  - apply app_eq_nil in Heq as [_ Heq]. symmetry in Heq.
    apply app_eq_nil in Heq as [Heq _].
    contradiction.
  - apply app_eq_nil in Heq as [_ Heq]. symmetry in Heq.
    apply app_eq_nil in Heq as [Heq _].
    contradiction.
  - apply app_eq_nil in Heq as [_ Heq]. symmetry in Heq.
    apply app_eq_nil in Heq as [Heq _].
    contradiction.
  - destruct pre as [|b pre].
    + rewrite string_app_nil in Heq.
      destruct (split_first_is_prefix sep s) as [rest Hrest].
      assert (Hs : String a s = sep ++ (post ++ rest)).
      { rewrite <- string_app_assoc, <- Heq, string_app_cons.
        f_equal. exact Hrest. }
      rewrite Hs, prefix_app in Hp. discriminate.
    + rewrite string_app_cons in Heq. injection Heq as _ Heq.
      exact (IH pre Heq).
Qed.

Lemma char_free_check (ch : Ascii.ascii) (a : string) :
  PyStr.split_first (String ch "") a = a ->
  ~ PyStr.contains (String ch "") a.
Proof.
  intros H. rewrite <- H. apply split_first_no_sep. discriminate.
Qed.

(** For a non-empty [sep], the first part of [s.split(sep)] is a text that
    [s] starts with and that does not contain [sep]. *)
Lemma split_first_free_of_sep (sep s : string) :
  sep <> "" ->
  (exists rest, s = PyStr.split_first sep s ++ rest)
  /\ ~ PyStr.contains sep (PyStr.split_first sep s).
Proof.
  intros Hsep. split; [apply split_first_is_prefix|].
  apply split_first_no_sep, Hsep.
Qed.

(** A text without the character [ch] is cut nowhere, and a text that
    continues with [ch] after a part without [ch] is cut to that part. *)
Lemma split_first_char (ch : Ascii.ascii) (a : string) :
  ~ PyStr.contains (String ch "") a ->
  PyStr.split_first (String ch "") a = a
  /\ forall b, PyStr.split_first (String ch "") (a ++ String ch "" ++ b) = a.
Proof.
  induction a as [|x a IH]; intros Hfree.
  - split; [reflexivity|]. intros b.
    rewrite string_app_nil, split_first_eq, prefix_app. reflexivity.
  - assert (Hx : ch <> x).
    { intros ->. apply Hfree. exists "", a. reflexivity. }
    assert (Ha : ~ PyStr.contains (String ch "") a).
    { intros (pre & post & ->). apply Hfree.
      exists (String x pre), post. reflexivity. }
    destruct (IH Ha) as [IH1 IH2].
    assert (Hp : forall t, String.prefix (String ch "") (String x t) = false).
    { intros t. simpl. destruct (Ascii.ascii_dec ch x); [contradiction|].
      reflexivity. }
    split; [|intros b; rewrite string_app_cons];
      rewrite split_first_eq, Hp; f_equal; [exact IH1 | apply IH2].
Qed.

(** ** The request hooks, case by case *)

Section HookCoverage.

Variable guess : string -> result (option (string * string)).

(** Classification leaves the state as it is but for at most one domain
    event in the collector, and none when it raises. *)
Lemma classification_event request status s c :
  collector (st_self s) = Some c ->
  exists r ev,
    _record_application_metrics guess request status s
      = (r, set_collector (Some (apply_event ev c)) s)
    /\ (forall e, r = Raise e -> ev = None).
Proof.
  intros Hc.
  assert (Hid : forall r : result unit,
             exists r' ev, (r, s) = (r', set_collector (Some (apply_event ev c)) s)
               /\ (forall e, r' = Raise e -> ev = None)).
  { intros r; exists r, None. simpl. rewrite (set_collector_same _ _ Hc).
    split; [reflexivity | intros; reflexivity]. }
  assert (Hcall : forall attr ev,
             exists r' ev',
               collector_call attr (apply_event (Some ev)) s
               = (r', set_collector (Some (apply_event ev' c)) s)
               /\ (forall e, r' = Raise e -> ev' = None)).
  { intros attr ev. exists (Ok tt), (Some ev).
    unfold collector_call, bind, get_collector, modify. rewrite Hc.
    split; [reflexivity | intros; discriminate]. }
  unfold _record_application_metrics.
  repeat match goal with
    | |- context [if ?b then _ else _] => destruct b
    end;
    unfold bind, lift, ret;
    repeat match goal with
      | |- context [match ?x with _ => _ end] =>
          lazymatch x with
          | collector_call _ _ _ => fail
          | _ => destruct x
          end
      end;
    first [ apply Hid
          | apply (Hcall _ (Download _ _))
          | apply (Hcall _ (Upload _ _))
          | apply (Hcall _ (Search _)) ].
Qed.

(** The collector after the hook, up to the domain event. *)
Lemma after_request_event s c :
  collector (st_self s) = Some c ->
  exists r ev,
    _after_request guess s
    = (r, set_collector
            (Some (apply_event ev
                     (record_http_request (method (st_request s))
                        (path (st_request s))
                        (str_int (status_code (st_response s)))
                        (hook_duration s) c)))
            (set_ticks (S (S (st_ticks s))) s))
    /\ (forall e, r = Raise e -> ev = None).
Proof.
  intros Hc. rewrite (after_request_unfold guess s c Hc).
  destruct (classification_event (st_request s)
              (str_int (status_code (st_response s)))
              (after_http_metric c s) _ eq_refl) as (r & ev & Heq & Hr).
  exists r, ev. rewrite Heq. split; [reflexivity | exact Hr].
Qed.

(** X1: With a collector, the hook records the HTTP metric and at most one
    domain event (a download, an upload or a search) on top of it; when the
    hook raises, it has recorded the HTTP metric and no domain event. *)
Theorem after_request_at_most_one_event s c :
  collector (st_self s) = Some c ->
  exists ev,
    collector (st_self (snd (_after_request guess s)))
    = Some (apply_event ev
              (record_http_request (method (st_request s))
                 (path (st_request s))
                 (str_int (status_code (st_response s)))
                 (hook_duration s) c))
    /\ (forall e, fst (_after_request guess s) = Raise e -> ev = None).
Proof.
  intros Hc. destruct (after_request_event s c Hc) as (r & ev & Heq & Hr).
  exists ev. rewrite Heq. split; [reflexivity | exact Hr].
Qed.

(** X2: The hook reads the clock twice and leaves the request, the response,
    the application, the backend's call count and the log as they were; in
    the collector it writes neither the repository gauges nor the upload
    failure, removal, index, authentication and error counters, the server
    info, the start time or the uptime. *)
Theorem after_request_frame s c :
  collector (st_self s) = Some c ->
  exists c',
    collector (st_self (snd (_after_request guess s))) = Some c'
    /\ unwritten_instruments c' = unwritten_instruments c
    /\ packages_total c' = packages_total c
    /\ projects_total c' = projects_total c
    /\ st_ticks (snd (_after_request guess s)) = S (S (st_ticks s))
    /\ st_queries (snd (_after_request guess s)) = st_queries s
    /\ st_request (snd (_after_request guess s)) = st_request s
    /\ st_response (snd (_after_request guess s)) = st_response s
    /\ st_app (snd (_after_request guess s)) = st_app s
    /\ st_log (snd (_after_request guess s)) = st_log s.
Proof.
  intros Hc. destruct (after_request_event s c Hc) as (r & ev & Heq & _).
  rewrite Heq. eexists. split; [reflexivity|].
  destruct ev as [[n f|n u|t]|]; repeat split.
Qed.

(** X3: The hook lowers no series of any counter and removes none. *)
Theorem after_request_counters_monotone s c :
  collector (st_self s) = Some c ->
  exists c',
    collector (st_self (snd (_after_request guess s))) = Some c'
    /\ counters_le c c'.
Proof.
  intros Hc. destruct (after_request_event s c Hc) as (r & ev & Heq & _).
  rewrite Heq. eexists. split; [reflexivity|].
  eapply counters_le_trans; [apply counters_le_http | apply counters_le_event].
Qed.

(** X4: The hook keeps the HTTP histogram and the HTTP counter in step: when
    every series had as many observations as requests before, so it has
    after. *)
Theorem after_request_keeps_http_consistent s c :
  collector (st_self s) = Some c ->
  http_consistent c ->
  exists c',
    collector (st_self (snd (_after_request guess s))) = Some c'
    /\ http_consistent c'.
Proof.
  intros Hc Hcons.
  destruct (after_request_event s c Hc) as (r & ev & Heq & _).
  rewrite Heq. eexists. split; [reflexivity|].
  apply http_consistent_event, http_consistent_request, Hcons.
Qed.



(** X6: A request that is neither a [GET] below [/packages/] nor a [POST] to
    [/] or [/RPC2] is classified as no event: the state is left as it is. *)
Theorem unmatched_request_records_no_event request status s :
  method request <> "GET"
  \/ PyStr.startswith "/packages/" (path request) = false ->
  method request <> "POST"
  \/ (path request <> "/" /\ path request <> "/RPC2") ->
  _record_application_metrics guess request status s = (Ok tt, s).
Proof.
  intros Hget Hpost. unfold _record_application_metrics.
  assert (H1 : bool_decide (method request = "GET")
               && PyStr.startswith "/packages/" (path request) = false).
  { destruct Hget as [H|H].
    - rewrite bool_decide_eq_false_2 by exact H. reflexivity.
    - rewrite H. apply andb_false_r. }
  assert (H2 : bool_decide (method request = "POST")
               && bool_decide (path request = "/") = false).
  { destruct Hpost as [H|[H _]];
      rewrite (bool_decide_eq_false_2 _ H); [reflexivity | apply andb_false_r]. }
  assert (H3 : bool_decide (method request = "POST")
               && bool_decide (path request = "/RPC2") = false).
  { destruct Hpost as [H|[_ H]];
      rewrite (bool_decide_eq_false_2 _ H); [reflexivity | apply andb_false_r]. }
  rewrite H1, H2, H3. reflexivity.
Qed.

Lemma after_request_without_collector_state s :
  collector (st_self s) = None -> fst (_after_request guess s) = Ok tt.
Proof. intros Hc. unfold _after_request. rewrite Hc. reflexivity. Qed.

Lemma packages_tail (tail : string) :
  PyStr.startswith "/packages/" ("/packages/" ++ tail) = true
  /\ PyStr.split1_last "/packages/" ("/packages/" ++ tail) = tail.
Proof.
  unfold PyStr.startswith, PyStr.split1_last.
  rewrite after_first_eq, prefix_app, drop_app. split; reflexivity.
Qed.

Lemma truthy_nonempty (x : string) : x <> "" -> PyStr.truthy x = true.
Proof. destruct x; [congruence | reflexivity]. Qed.

(** X7: A successful [GET] of [/packages/<file>], or of that path followed by
    [?] and more text, where [file] is not empty and has no [?]: the hook
    returns when the parser does; when the parser gives a project name the
    download series of that name and [file] goes up by one, and when it
    gives [None] the download counter is left as it was. *)
Theorem download_recorded_for_path_tail s c file parsed :
  collector (st_self s) = Some c ->
  method (st_request s) = "GET" ->
  status_code (st_response s) = 200 ->
  file <> "" ->
  ~ PyStr.contains "?" file ->
  path (st_request s) = "/packages/" ++ file
  \/ (exists rest, path (st_request s) = "/packages/" ++ file ++ "?" ++ rest) ->
  guess file = Ok parsed ->
  fst (_after_request guess s) = Ok tt
  /\ recorded_downloads (snd (_after_request guess s))
     = match parsed with
       | Some (package_name, _) =>
           counter_inc (package_name, file) (recorded_downloads s)
       | None => recorded_downloads s
       end.
Proof.
  intros Hc Hm Hs Hfile Hfree Hp Hg.
  rewrite (after_request_unfold guess s c Hc).
  unfold _record_application_metrics. rewrite Hm, Hs, str_int_200.
  destruct (split_first_char _ file Hfree) as [Hcut1 Hcut2].
  assert (Hpath : PyStr.startswith "/packages/" (path (st_request s)) = true
                  /\ PyStr.split_first "?"
                       (PyStr.split1_last "/packages/" (path (st_request s)))
                     = file).
  { destruct Hp as [-> | [rest ->]].
    - destruct (packages_tail file) as [Ha Hb].
      rewrite Ha, Hb. split; [reflexivity | exact Hcut1].
    - destruct (packages_tail (file ++ "?" ++ rest)) as [Ha Hb].
      rewrite Ha, Hb. split; [reflexivity | apply Hcut2]. }
  destruct Hpath as [-> ->]. rewrite (truthy_nonempty file Hfile).
  simpl. unfold bind, lift. rewrite Hg.
  unfold recorded_downloads. rewrite Hc.
  destruct parsed as [[package_name v]|]; simpl; split; reflexivity.
Qed.

(** X8: A successful [POST] to [/] with the action [file_upload] and a file
    part [content] whose name the parser resolves: the upload series of the
    project and the user goes up by one; the user is the name of the
    principal, or [anonymous] without a principal or with an empty name. *)
Theorem upload_recorded_for_principal s c fields parts f package_name v
    principal :
  collector (st_self s) = Some c ->
  method (st_request s) = "POST" ->
  path (st_request s) = "/" ->
  status_code (st_response s) = 200 ->
  forms (st_request s) = Ok fields ->
  fields !! ":action" = Some "file_upload" ->
  files (st_request s) = Ok parts ->
  parts !! "content" = Some f ->
  guess (raw_filename f) = Ok (Some (package_name, v)) ->
  auth (st_request s) = Ok principal ->
  fst (_after_request guess s) = Ok tt
  /\ recorded_uploads (snd (_after_request guess s))
     = counter_inc (package_name, upload_user principal) (recorded_uploads s)
  /\ recorded_downloads (snd (_after_request guess s)) = recorded_downloads s
  /\ recorded_searches (snd (_after_request guess s)) = recorded_searches s.
Proof.
  intros Hc Hm Hp Hs Hforms Haction Hfiles Hcontent Hg Hauth.
  rewrite (after_request_unfold guess s c Hc).
  unfold _record_application_metrics. rewrite Hm, Hp, Hs, str_int_200.
  simpl. unfold bind, lift. rewrite Hforms, Haction. simpl.
  rewrite Hfiles, Hcontent, Hg, Hauth.
  unfold recorded_uploads, recorded_downloads, recorded_searches.
  rewrite Hc.
  destruct principal as [[u pw]|]; simpl; [destruct u|]; repeat split.
Qed.

(** X9: A successful [POST] to [/] records no event when the form has no
    [:action] or another action, when there is no file part [content], or
    when the parser does not resolve the name of the part. *)
Theorem upload_skipped s c fields :
  collector (st_self s) = Some c ->
  method (st_request s) = "POST" ->
  path (st_request s) = "/" ->
  status_code (st_response s) = 200 ->
  forms (st_request s) = Ok fields ->
  fields !! ":action" <> Some "file_upload"
  \/ (exists parts, files (st_request s) = Ok parts
                    /\ parts !! "content" = None)
  \/ (exists parts f, files (st_request s) = Ok parts
                      /\ parts !! "content" = Some f
                      /\ guess (raw_filename f) = Ok None) ->
  _after_request guess s = (Ok tt, after_http_metric c s).
Proof.
  intros Hc Hm Hp Hs Hforms Hskip.
  rewrite (after_request_unfold guess s c Hc).
  unfold _record_application_metrics. rewrite Hm, Hp, Hs, str_int_200.
  simpl. unfold bind, lift. rewrite Hforms.
  case_bool_decide as Haction; [|reflexivity].
  destruct Hskip as [Hno | [(parts & Hfiles & Hnone)
                           | (parts & f & Hfiles & Hsome & Hg)]].
  - exfalso. apply Hno. destruct (fields !! ":action"); simpl in Haction;
      congruence.
  - rewrite Hfiles, Hnone. reflexivity.
  - rewrite Hfiles, Hsome, Hg. reflexivity.
Qed.

(** X10: A successful [POST] to [/RPC2] is counted as one [xmlrpc] search,
    whatever the body, the parser and the request's accessors are: none of
    them is consulted. *)
Theorem search_recorded_regardless s c :
  collector (st_self s) = Some c ->
  method (st_request s) = "POST" ->
  path (st_request s) = "/RPC2" ->
  status_code (st_response s) = 200 ->
  fst (_after_request guess s) = Ok tt
  /\ recorded_searches (snd (_after_request guess s))
     = counter_inc "xmlrpc" (recorded_searches s)
  /\ recorded_uploads (snd (_after_request guess s)) = recorded_uploads s
  /\ recorded_downloads (snd (_after_request guess s)) = recorded_downloads s.
Proof.
  intros Hc Hm Hp Hs.
  rewrite (after_request_unfold guess s c Hc).
  unfold _record_application_metrics. rewrite Hm, Hp, Hs, str_int_200.
  unfold recorded_searches, recorded_uploads, recorded_downloads.
  rewrite Hc. simpl. repeat split.
Qed.

(** X11: When the filename parser and the accessors of the request return, the
    hook returns. *)
Theorem after_request_returns_when_collaborators_return s :
  (forall filename, exists parsed, guess filename = Ok parsed) ->
  (exists fields, forms (st_request s) = Ok fields) ->
  (exists parts, files (st_request s) = Ok parts) ->
  (exists principal, auth (st_request s) = Ok principal) ->
  fst (_after_request guess s) = Ok tt.
Proof.
  intros Hg [fields Hforms] [parts Hfiles] [principal Hauth].
  destruct (collector (st_self s)) as [c|] eqn:Hc;
    [|rewrite after_request_without_collector_state by exact Hc; reflexivity].
  rewrite (after_request_unfold guess s c Hc).
  unfold _record_application_metrics.
  repeat match goal with
    | |- context [if ?b then _ else _] => destruct b
    end;
    unfold bind, lift, ret, collector_call, get_collector, modify;
    rewrite ?Hforms, ?Hfiles, ?Hauth; simpl;
    repeat match goal with
      | |- context [guess ?x] =>
          let parsed := fresh "parsed" in
          let H := fresh "H" in
          destruct (Hg x) as [parsed H]; rewrite H;
          destruct parsed as [[? ?]|]; simpl
      | |- context [if ?b then _ else _] => destruct b
      | |- context [match ?m !! ?k with _ => _ end] => destruct (m !! k); simpl
      | |- context [match files _ with _ => _ end] => rewrite Hfiles; simpl
      | |- context [match auth _ with _ => _ end] => rewrite Hauth; simpl
      end;
    reflexivity.
Qed.

(** X12: The two hooks around a request: the duration recorded in the series of
    the request is the clock reading at the start of the after-request hook
    minus the reading that the before-request hook stamped, whatever stamp
    the request carried before. *)
Theorem before_then_after_records_elapsed s c :
  collector (st_self s) = Some c ->
  fst (_before_request s) = Ok tt
  /\ recorded_durations (request_labels s)
       (snd (_after_request guess (snd (_before_request s))))
     = (st_clock s (S (st_ticks s)) - st_clock s (st_ticks s))
       :: recorded_durations (request_labels s) s.
Proof.
  intros Hc. split; [reflexivity|].
  assert (Hc1 : collector (st_self (snd (_before_request s))) = Some c)
    by exact Hc.
  destruct (after_request_http_metric guess _ c Hc1)
    as (r & c' & Heq & _ & Hh & _).
  rewrite Heq. unfold recorded_durations; simpl. rewrite Hc, Hh.
  unfold histogram_observe, observations at 1.
  change (request_labels (snd (_before_request s))) with (request_labels s).
  rewrite lookup_insert_eq. reflexivity.
Qed.

(** What classification does to the download counter: nothing, or one
    increment of a series whose filename is the non-empty path tail up to
    the first [?]. *)
Lemma classification_downloads request status s c :
  collector (st_self s) = Some c ->
  exists r c',
    _record_application_metrics guess request status s
      = (r, set_collector (Some c') s)
    /\ (package_downloads_total c' = package_downloads_total c
        \/ exists package_name,
             PyStr.truthy
               (PyStr.split_first "?"
                  (PyStr.split1_last "/packages/" (path request))) = true
             /\ package_downloads_total c'
                = counter_inc
                    (package_name,
                     PyStr.split_first "?"
                       (PyStr.split1_last "/packages/" (path request)))
                    (package_downloads_total c)).
Proof.
  intros Hc.
  assert (Hid : forall r : result unit,
             exists r' c', (r, s) = (r', set_collector (Some c') s)
               /\ package_downloads_total c' = package_downloads_total c).
  { intros r; exists r, c. rewrite (set_collector_same _ _ Hc).
    split; reflexivity. }
  assert (Hother : forall attr f,
             package_downloads_total (f c) = package_downloads_total c ->
             exists r' c',
               collector_call attr f s = (r', set_collector (Some c') s)
               /\ package_downloads_total c' = package_downloads_total c).
  { intros attr f Hf. exists (Ok tt), (f c).
    unfold collector_call, bind, get_collector, modify. rewrite Hc.
    split; [reflexivity | exact Hf]. }
  assert (Hleft : forall R : result unit * State,
             (exists r' c', R = (r', set_collector (Some c') s)
                /\ package_downloads_total c' = package_downloads_total c) ->
             exists r' c', R = (r', set_collector (Some c') s)
               /\ (package_downloads_total c' = package_downloads_total c
                   \/ exists package_name,
                        PyStr.truthy
                          (PyStr.split_first "?"
                             (PyStr.split1_last "/packages/" (path request)))
                        = true
                        /\ package_downloads_total c'
                           = counter_inc
                               (package_name,
                                PyStr.split_first "?"
                                  (PyStr.split1_last "/packages/"
                                     (path request)))
                               (package_downloads_total c))).
  { intros R (r' & c' & H1 & H2). exists r', c'.
    split; [exact H1 | left; exact H2]. }
  unfold _record_application_metrics.
  destruct (bool_decide (method request = "GET")
            && PyStr.startswith "/packages/" (path request)
            && bool_decide (status = "200")).
  - clear Hleft.
    destruct (PyStr.truthy
                (PyStr.split_first "?"
                   (PyStr.split1_last "/packages/" (path request))))
      eqn:Htail.
    2:{ destruct (Hid (Ok tt)) as (r' & c' & H1 & H2).
        exists r', c'. split; [exact H1 | left; exact H2]. }
    unfold bind, lift.
    destruct (guess _) as [[[package_name v]|]|e].
    + exists (Ok tt), (record_download package_name
                         (PyStr.split_first "?"
                            (PyStr.split1_last "/packages/" (path request)))
                         c).
      unfold collector_call, bind, get_collector, modify. rewrite Hc.
      split; [reflexivity|]. right. exists package_name.
      split; reflexivity.
    + destruct (Hid (Ok tt)) as (r' & c' & H1 & H2).
      exists r', c'. split; [exact H1 | left; exact H2].
    + destruct (Hid (Raise e)) as (r' & c' & H1 & H2).
      exists r', c'. split; [exact H1 | left; exact H2].
  - apply Hleft.
    repeat match goal with
      | |- context [if ?b then _ else _] => destruct b
      end;
      unfold bind, lift, ret;
      repeat match goal with
        | |- context [match ?x with _ => _ end] =>
            lazymatch x with
            | collector_call _ _ _ => fail
            | _ => destruct x
            end
        end;
      solve [ apply Hid | apply Hother; reflexivity ].
Qed.

(** X18: Whatever the request and the parser, a download series that the
    after-request hook changes has a filename label that is not empty and
    does not contain [?]: it is the text of the path after [/packages/] up
    to the first [?]. *)
Theorem download_label_free_of_query s c package_name filename :
  collector (st_self s) = Some c ->
  recorded_downloads (snd (_after_request guess s)) !! (package_name, filename)
    <> recorded_downloads s !! (package_name, filename) ->
  filename <> ""
  /\ ~ PyStr.contains "?" filename
  /\ filename
     = PyStr.split_first "?"
         (PyStr.split1_last "/packages/" (path (st_request s))).
Proof.
  intros Hc Hchange.
  rewrite (after_request_unfold guess s c Hc) in Hchange.
  destruct (classification_downloads (st_request s)
              (str_int (status_code (st_response s)))
              (after_http_metric c s) _ eq_refl)
    as (r & c' & Heq & Hdl).
  rewrite Heq in Hchange. unfold recorded_downloads in Hchange.
  simpl in Hchange. rewrite Hc in Hchange.
  destruct Hdl as [Hsame | (n & Htail & Hinc)].
  - exfalso. apply Hchange. rewrite Hsame. reflexivity.
  - rewrite Hinc in Hchange. simpl in Hchange.
    destruct (decide ((n, PyStr.split_first "?"
                            (PyStr.split1_last "/packages/"
                               (path (st_request s))))
                      = (package_name, filename))) as [Hkey|Hkey].
    + injection Hkey as _ <-. split; [|split; [|reflexivity]].
      * intros Hempty. rewrite Hempty in Htail. discriminate Htail.
      * apply split_first_no_sep. discriminate.
    + exfalso. apply Hchange. apply counter_inc_other, Hkey.
Qed.

End HookCoverage.

(** ** The scrape, case by case *)

Lemma names_size_le (names : list string) :
  (size (list_to_set names : gset string) <= length names)%nat.
Proof.
  induction names as [|x names IH].
  - rewrite list_to_set_nil, size_empty. reflexivity.
  - rewrite list_to_set_cons, size_union_alt, size_singleton.
    pose proof (subseteq_size
                  (list_to_set names ∖ {[x]})
                  (list_to_set names : gset string)
                  (subseteq_difference_l _ _ _ (reflexivity _))) as Hle.
    simpl. lia.
Qed.

Lemma names_size_full (names : list string) :
  size (list_to_set names : gset string) = length names <-> NoDup names.
Proof.
  split; [|apply size_list_to_set].
  induction names as [|x names IH]; intros Hsize; [constructor|].
  rewrite list_to_set_cons in Hsize. simpl in Hsize.
  pose proof (names_size_le names) as Hle.
  destruct (decide (x ∈ names)) as [Hin|Hout].
  - exfalso.
    assert (Heq : {[x]} ∪ list_to_set names = (list_to_set names : gset string)).
    { apply subseteq_union_1_L, singleton_subseteq_l, elem_of_list_to_set, Hin. }
    rewrite Heq in Hsize. lia.
  - rewrite size_union in Hsize
      by (apply disjoint_singleton_l; rewrite elem_of_list_to_set; exact Hout).
    rewrite size_singleton in Hsize.
    apply NoDup_cons. split; [exact Hout | apply IH; lia].
Qed.

Section ScrapeCoverage.

Variable generate_latest : MetricsCollector -> result string.
Variable CONTENT_TYPE_LATEST : string.

(** X19: With a backend that gives the same package list to both calls of a
    refresh, [projects_total] is at most [packages_total], and the two are
    equal exactly when no two packages of the list have the same project
    name. *)
Theorem steady_backend_gauges s cfg b c pkgs :
  config (st_self s) = Some cfg ->
  backend cfg = Some b ->
  collector (st_self s) = Some c ->
  get_all_packages b (st_queries s) = Ok pkgs ->
  get_all_packages b (S (st_queries s)) = Ok pkgs ->
  exists c',
    collector (st_self (snd (_update_repository_stats s))) = Some c'
    /\ packages_total c' = Z.of_nat (length pkgs)
    /\ projects_total c' <= packages_total c'
    /\ (projects_total c' = packages_total c'
        <-> NoDup (pkgname <$> pkgs)).
Proof.
  intros Hcfg Hb Hc Hq1 Hq2.
  rewrite (update_repository_stats_success s cfg b c pkgs pkgs
             Hcfg Hb Hc Hq1 Hq2).
  eexists. split; [reflexivity|]. simpl. unfold distinct_projects.
  pose proof (names_size_le (pkgname <$> pkgs)) as Hle.
  pose proof (names_size_full (pkgname <$> pkgs)) as Hfull.
  rewrite length_fmap in Hle, Hfull.
  split; [reflexivity | split; [lia|]].
  rewrite <- Hfull. lia.
Qed.

(** X20: A refresh in which a call of the backend raises returns all the same
    and leaves the plugin as it was; an [AttributeError] is dropped without
    a trace, and any other exception adds one warning with its message to
    the log. *)
Theorem update_repository_stats_logs_failure s cfg b e :
  config (st_self s) = Some cfg ->
  backend cfg = Some b ->
  get_all_packages b (st_queries s) = Raise e
  \/ (exists l, get_all_packages b (st_queries s) = Ok l
               /\ get_all_packages b (S (st_queries s)) = Raise e) ->
  fst (_update_repository_stats s) = Ok tt
  /\ st_self (snd (_update_repository_stats s)) = st_self s
  /\ st_log (snd (_update_repository_stats s))
     = if is_AttributeError e then st_log s
       else ("Failed to update repository stats: " ++ str_exn e) :: st_log s.
Proof.
  intros Hcfg Hb Hq. unfold _update_repository_stats. rewrite Hcfg, Hb.
  unfold try_except, bind, query, log_warning, modify, ret; simpl.
  destruct Hq as [Hq | (l & Hq1 & Hq2)].
  - rewrite Hq. destruct (is_AttributeError e); simpl; auto.
  - rewrite Hq1; simpl. rewrite Hq2.
    destruct (is_AttributeError e); simpl; auto.
Qed.






End ScrapeCoverage.

(** ** Installing the plugin, case by case *)

Section SetupCoverage.

Variable pypiserver_version : string.

(** [setup] on an application with a configuration, up to the endpoint
    step. *)
Lemma setup_configured s cfg :
  _pypiserver_config (st_app s) = Some cfg ->
  setup pypiserver_version s
  = _add_metrics_endpoint
      (set_app
         (add_after_hook after_request_hook
            (add_before_hook before_request_hook (st_app s)))
         (set_collector
            (Some (set_server_info pypiserver_version
                     (match backend cfg with
                      | Some b => type_name b
                      | None => "NoneType"
                      end)
                     (PyStr.or_else (default "" (fallback_url cfg)) "none")
                     (Collector.init (st_clock s (st_ticks s)))))
            (set_ticks (S (st_ticks s)) (set_config (Some cfg) s)))).
Proof.
  intros Hcfg. unfold setup; simpl. rewrite Hcfg.
  destruct s as [clk n q [ep cf co] a rq rs lg]; reflexivity.
Qed.


(** X25: A [setup] that fails on the endpoint has already changed the
    application and the plugin: both hooks are installed and the collector
    is created, and they stay so after the error. *)
Theorem setup_conflict_keeps_hooks s cfg :
  _pypiserver_config (st_app s) = Some cfg ->
  metrics_endpoint (st_self s) ∈ (rule <$> routes (st_app s)) ->
  fst (setup pypiserver_version s)
    = Raise (overlap_error (metrics_endpoint (st_self s)))
  /\ before_request_hooks (st_app (snd (setup pypiserver_version s)))
     = (before_request_hooks (st_app s) ++ [before_request_hook])%list
  /\ after_request_hooks (st_app (snd (setup pypiserver_version s)))
     = after_request_hook :: after_request_hooks (st_app s)
  /\ is_Some (collector (st_self (snd (setup pypiserver_version s))))
  /\ config (st_self (snd (setup pypiserver_version s))) = Some cfg.
Proof.
  intros Hcfg Hin. rewrite (setup_configured s cfg Hcfg).
  unfold _add_metrics_endpoint; simpl.
  rewrite bool_decide_eq_true_2 by exact Hin. simpl.
  repeat apply conj; try reflexivity. eexists. reflexivity.
Qed.

(** X26: [setup] on an application without a pypiserver configuration raises
    the missing-configuration error before anything else happens: the
    clock is not read, no collector is made, no hook and no route is
    added; only the plugin's configuration is set, to [None]. *)
Theorem setup_without_config s :
  _pypiserver_config (st_app s) = None ->
  setup pypiserver_version s
  = (Raise missing_config_error, set_config None s).
Proof.
  intros Hcfg. unfold setup; simpl. rewrite Hcfg. reflexivity.
Qed.

(** X27: Installing the plugin a second time fails: after a [setup] that
    returned, another [setup] on the same application raises the overlap
    error for the plugin's own route. *)
Theorem setup_twice_conflicts s :
  fst (setup pypiserver_version s) = Ok tt ->
  fst (setup pypiserver_version (snd (setup pypiserver_version s)))
  = Raise (overlap_error (metrics_endpoint (st_self s))).
Proof.
  intros Hok.
  destruct (_pypiserver_config (st_app s)) as [cfg|] eqn:Hcfg.
  2:{ unfold setup in Hok; simpl in Hok. rewrite Hcfg in Hok.
      discriminate Hok. }
  rewrite (setup_configured s cfg Hcfg) in Hok |- *.
  match type of Hok with
  | fst (_add_metrics_endpoint ?st) = _ => set (st1 := st) in *
  end.
  assert (Hsnd : snd (_add_metrics_endpoint st1)
                 = set_app (app_route (metrics_route (metrics_endpoint (st_self s)))
                              (st_app st1)) st1).
  { destruct (add_metrics_endpoint_spec st1) as [Hhit Hmiss].
    destruct (decide (metrics_endpoint (st_self st1)
                      ∈ (rule <$> routes (st_app st1)))) as [Hin|Hout].
    - rewrite (Hhit Hin) in Hok. discriminate Hok.
    - rewrite (Hmiss Hout). reflexivity. }
  rewrite Hsnd. rewrite (setup_configured _ cfg) by exact Hcfg.
  unfold _add_metrics_endpoint; simpl.
  rewrite bool_decide_eq_true_2; [reflexivity|].
  rewrite fmap_app. apply elem_of_app. right. simpl.
  apply list_elem_of_here.
Qed.

(** X28: After a [setup] that returned, the after-request hook finds a
    collector: it records the first request in a series whose counter is 1
    and whose histogram holds one observation. *)
Theorem setup_then_after_request
    (guess : string -> result (option (string * string))) s :
  fst (setup pypiserver_version s) = Ok tt ->
  recorded_requests (request_labels s)
    (snd (_after_request guess (snd (setup pypiserver_version s))))
    = 1%nat
  /\ length (recorded_durations (request_labels s)
               (snd (_after_request guess (snd (setup pypiserver_version s)))))
     = 1%nat.
Proof.
  intros Hok.
  destruct (_pypiserver_config (st_app s)) as [cfg|] eqn:Hcfg.
  2:{ unfold setup in Hok; simpl in Hok. rewrite Hcfg in Hok.
      discriminate Hok. }
  rewrite (setup_configured s cfg Hcfg) in Hok |- *.
  unfold _add_metrics_endpoint in Hok |- *; simpl in Hok |- *.
  case_bool_decide as Hin; [discriminate Hok|]. clear Hok. simpl.
  match goal with
  | |- context [_after_request guess ?st] =>
      destruct (after_request_records_once guess st _ eq_refl) as [Hn Hd];
      change (request_labels st) with (request_labels s) in Hn, Hd
  end.
  rewrite Hn, Hd. split; reflexivity.
Qed.

End SetupCoverage.

(** ** The properties above on concrete requests and hosts *)

Lemma after_request_at_most_one_event_witness :
  exists ev,
    collector
      (st_self (snd (_after_request Examples.foo_parser
                       (Examples.download_state 200))))
    = Some (apply_event ev
              (record_http_request "GET" "/packages/foo-1.0.0.tar.gz" "200" 2
                 (Collector.init 0)))
    /\ (forall e,
          fst (_after_request Examples.foo_parser (Examples.download_state 200))
          = Raise e -> ev = None).
Proof.
  apply (after_request_at_most_one_event Examples.foo_parser
           (Examples.download_state 200) (Collector.init 0)).
  reflexivity.
Defined.

Lemma after_request_frame_witness :
  exists c',
    collector
      (st_self (snd (_after_request Examples.failing_parser
                       (Examples.download_state 200)))) = Some c'
    /\ unwritten_instruments c' = unwritten_instruments (Collector.init 0)
    /\ packages_total c' = 0
    /\ projects_total c' = 0.
Proof.
  destruct (after_request_frame Examples.failing_parser
              (Examples.download_state 200) (Collector.init 0) eq_refl)
    as (c' & H1 & H2 & H3 & H4 & _).
  exists c'. repeat apply conj; assumption.
Defined.

Lemma after_request_counters_monotone_witness :
  exists c',
    collector
      (st_self (snd (_after_request Examples.bar_parser
                       (Examples.request_state Examples.upload_request))))
    = Some c'
    /\ counters_le (Collector.init 0) c'.
Proof.
  apply (after_request_counters_monotone Examples.bar_parser
           (Examples.request_state Examples.upload_request)
           (Collector.init 0)).
  reflexivity.
Defined.

Lemma after_request_keeps_http_consistent_witness :
  exists c',
    collector
      (st_self (snd (_after_request Examples.foo_parser
                       (Examples.download_state 200)))) = Some c'
    /\ http_consistent c'.
Proof.
  apply (after_request_keeps_http_consistent Examples.foo_parser
           (Examples.download_state 200) (Collector.init 0)).
  - reflexivity.
  - intros k. reflexivity.
Defined.


Lemma unmatched_request_records_no_event_witness :
  _record_application_metrics Examples.failing_parser Examples.head_request
    "200" (Examples.request_state Examples.head_request)
  = (Ok tt, Examples.request_state Examples.head_request).
Proof.
  apply (unmatched_request_records_no_event Examples.failing_parser
           Examples.head_request "200"
           (Examples.request_state Examples.head_request)).
  - left. simpl. discriminate.
  - left. simpl. discriminate.
Defined.

Lemma download_recorded_for_path_tail_witness :
  fst (_after_request Examples.foo_parser Examples.query_download_state)
    = Ok tt
  /\ recorded_downloads
       (snd (_after_request Examples.foo_parser Examples.query_download_state))
     = {[ ("foo", "foo-1.0.0.tar.gz") := 1%nat ]}.
Proof.
  apply (download_recorded_for_path_tail Examples.foo_parser
           Examples.query_download_state (Collector.init 0)
           "foo-1.0.0.tar.gz" (Some ("foo", "1.0.0"))).
  - reflexivity.
  - reflexivity.
  - reflexivity.
  - discriminate.
  - apply char_free_check. reflexivity.
  - right. exists "download=1". reflexivity.
  - reflexivity.
Defined.

Lemma upload_recorded_for_principal_witness :
  fst (_after_request Examples.bar_parser
         (Examples.request_state Examples.alice_upload_request)) = Ok tt
  /\ recorded_uploads
       (snd (_after_request Examples.bar_parser
               (Examples.request_state Examples.alice_upload_request)))
     = {[ ("bar", "alice") := 1%nat ]}.
Proof.
  destruct (upload_recorded_for_principal Examples.bar_parser
              (Examples.request_state Examples.alice_upload_request)
              (Collector.init 0)
              {[ ":action" := "file_upload" ]}
              {[ "content" := mkFileUpload "bar-2.1.tar.gz" ]}
              (mkFileUpload "bar-2.1.tar.gz") "bar" "2.1"
              (Some ("alice", Some "secret"))
              eq_refl eq_refl eq_refl eq_refl eq_refl eq_refl eq_refl
              eq_refl eq_refl eq_refl) as (H1 & H2 & _).
  split; [exact H1 | exact H2].
Defined.

Lemma upload_skipped_witness :
  _after_request Examples.bar_parser
    (Examples.request_state Examples.remove_request)
  = (Ok tt,
     after_http_metric (Collector.init 0)
       (Examples.request_state Examples.remove_request)).
Proof.
  apply (upload_skipped Examples.bar_parser
           (Examples.request_state Examples.remove_request)
           (Collector.init 0) {[ ":action" := "remove_pkg" ]});
    try reflexivity.
  left. vm_compute. discriminate.
Defined.

Lemma search_recorded_regardless_witness :
  fst (_after_request Examples.failing_parser
         (Examples.request_state Examples.rpc_request)) = Ok tt
  /\ recorded_searches
       (snd (_after_request Examples.failing_parser
               (Examples.request_state Examples.rpc_request)))
     = {[ "xmlrpc" := 1%nat ]}.
Proof.
  destruct (search_recorded_regardless Examples.failing_parser
              (Examples.request_state Examples.rpc_request)
              (Collector.init 0) eq_refl eq_refl eq_refl eq_refl)
    as (H1 & H2 & _).
  split; [exact H1 | exact H2].
Defined.

Lemma after_request_returns_when_collaborators_return_witness :
  fst (_after_request Examples.dash_parser
         (Examples.request_state Examples.alice_upload_request)) = Ok tt.
Proof.
  apply (after_request_returns_when_collaborators_return
           Examples.dash_parser
           (Examples.request_state Examples.alice_upload_request)).
  - intros filename. eexists. reflexivity.
  - eexists. reflexivity.
  - eexists. reflexivity.
  - eexists. reflexivity.
Defined.

Lemma before_then_after_records_elapsed_witness :
  recorded_durations ("GET", "/simple/", "200")
    (snd (_after_request Examples.foo_parser
            (snd (_before_request Examples.late_stamp_state))))
  = [1].
Proof.
  apply (proj2 (before_then_after_records_elapsed Examples.foo_parser
                  Examples.late_stamp_state (Collector.init 0) eq_refl)).
Defined.

Lemma split_parts_rejoin_witness :
  "/packages/a?b"
  = PyStr.split_first "?" "/packages/a?b" ++ "?" ++ "b"
  /\ PyStr.split1_last "?" "/packages/a?b" = "b".
Proof.
  apply (proj1 (split_parts_rejoin "?" "/packages/a?b") "b").
  reflexivity.
Defined.

Lemma split_first_free_of_sep_witness :
  (exists rest, "a?b?c" = PyStr.split_first "?" "a?b?c" ++ rest)
  /\ ~ PyStr.contains "?" (PyStr.split_first "?" "a?b?c").
Proof.
  apply (split_first_free_of_sep "?" "a?b?c"). discriminate.
Defined.

Lemma steady_backend_gauges_witness :
  exists c',
    collector
      (st_self (snd (_update_repository_stats
                       (Examples.scrape_state Examples.steady_backend))))
    = Some c'
    /\ packages_total c' = 3
    /\ projects_total c' <= packages_total c'
    /\ (projects_total c' = packages_total c'
        <-> NoDup (pkgname <$> [Examples.foo_pkg; Examples.foo_pkg;
                                Examples.bar_pkg])).
Proof.
  apply (steady_backend_gauges
           (Examples.scrape_state Examples.steady_backend)
           (Examples.host_config Examples.steady_backend)
           Examples.steady_backend Examples.scraped_collector
           [Examples.foo_pkg; Examples.foo_pkg; Examples.bar_pkg]);
    reflexivity.
Defined.

Lemma update_repository_stats_logs_failure_witness :
  fst (_update_repository_stats
         (Examples.scrape_state Examples.broken_backend)) = Ok tt
  /\ st_log (snd (_update_repository_stats
                    (Examples.scrape_state Examples.broken_backend)))
     = ["Failed to update repository stats: storage unreachable"].
Proof.
  destruct (update_repository_stats_logs_failure
              (Examples.scrape_state Examples.broken_backend)
              (Examples.host_config Examples.broken_backend)
              Examples.broken_backend
              (OtherException "storage unreachable")
              eq_refl eq_refl (or_introl eq_refl)) as (H1 & _ & H3).
  split; [exact H1 | exact H3].
Defined.



Lemma setup_conflict_keeps_hooks_witness :
  fst (setup "2.3.2" (Examples.install_state ["/"; "/metrics"]))
    = Raise (overlap_error "/metrics")
  /\ after_request_hooks
       (st_app (snd (setup "2.3.2"
                       (Examples.install_state ["/"; "/metrics"]))))
     = [after_request_hook].
Proof.
  destruct (setup_conflict_keeps_hooks "2.3.2"
              (Examples.install_state ["/"; "/metrics"])
              (Examples.host_config Examples.steady_backend) eq_refl)
    as (H1 & _ & H3 & _).
  - refine (bool_decide_unpack _ _). vm_compute. exact I.
  - split; [exact H1 | exact H3].
Defined.

Lemma setup_without_config_witness :
  setup "2.3.2" (Examples.installing "/metrics" (Examples.host_app None ["/"]))
  = (Raise missing_config_error,
     set_config None
       (Examples.installing "/metrics" (Examples.host_app None ["/"]))).
Proof.
  apply (setup_without_config "2.3.2"
           (Examples.installing "/metrics" (Examples.host_app None ["/"]))).
  reflexivity.
Defined.

Lemma setup_twice_conflicts_witness :
  fst (setup "2.3.2"
         (snd (setup "2.3.2" (Examples.install_state ["/"; "/simple/"]))))
  = Raise (overlap_error "/metrics").
Proof.
  apply (setup_twice_conflicts "2.3.2"
           (Examples.install_state ["/"; "/simple/"])).
  reflexivity.
Defined.

Lemma setup_then_after_request_witness :
  recorded_requests ("GET", "/", "200")
    (snd (_after_request Examples.foo_parser
            (snd (setup "2.3.2" (Examples.install_state ["/"; "/simple/"])))))
  = 1%nat.
Proof.
  apply (proj1 (setup_then_after_request "2.3.2" Examples.foo_parser
                  (Examples.install_state ["/"; "/simple/"]) eq_refl)).
Defined.

Lemma download_label_free_of_query_witness :
  "foo-1.0.0.tar.gz" <> ""
  /\ ~ PyStr.contains "?" "foo-1.0.0.tar.gz"
  /\ "foo-1.0.0.tar.gz"
     = PyStr.split_first "?"
         (PyStr.split1_last "/packages/"
            "/packages/foo-1.0.0.tar.gz?download=1").
Proof.
  apply (download_label_free_of_query Examples.foo_parser
           Examples.query_download_state (Collector.init 0) "foo").
  - reflexivity.
  - vm_compute. discriminate.
Defined.
